(** * Verification of the samgeo import resolver ([_samgeo_lib.py])

    The module exports one operation, [get_samgeo], which returns the
    external [samgeo] library even when the plugin package of the same
    name shadows it.  It tries a normal import, then an import with the
    plugin's parent directory taken off [sys.path], then a direct load
    from installed-distribution metadata under the alias
    [samgeo_external], and keeps the first module found in [_CACHED].

    The embedding is a shallow one.  The interpreter state the code
    reads and writes ([sys.path], [sys.modules], [sys.executable],
    [sys.version_info]) is an explicit record that is threaded through
    every call; the import machinery, the filesystem and the package
    metadata are oracles collected in an environment record, so that
    every theorem holds for all their behaviours.  Python's exceptions
    are results of a small state-and-exception monad with the
    [try]/[except]/[finally] forms the source uses. *)

From Stdlib Require Import Ascii.
From stdpp Require Import base strings gmap list pretty.

(** ** Exceptions *)

(** The exception classes that matter to the handlers of the source:
    [except Exception] catches every class but the two that derive from
    [BaseException] only; [except PackageNotFoundError] catches that
    class alone (it has no subclass). *)
Inductive ExcClass :=
| KeyboardInterrupt
| SystemExit
| ImportError
| ModuleNotFoundError
| PackageNotFoundError
| OSError
| RuntimeError
| TypeError
| ValueError.

Definition is_Exception (c : ExcClass) : bool :=
  match c with
  | KeyboardInterrupt | SystemExit => false
  | _ => true
  end.

Definition is_PackageNotFoundError (c : ExcClass) : bool :=
  match c with
  | PackageNotFoundError => true
  | _ => false
  end.

Record Exc := mkExc { exc_class : ExcClass; exc_msg : string }.

(** How a call ends: with a value, or with an exception of type [E]. *)
Inductive Outcome (E A : Type) :=
| Return (a : A)
| Raise (e : E).
Arguments Return {E A} a.
Arguments Raise {E A} e.

(** ** Objects and attributes *)

(** An attribute looked up with [getattr(obj, name, default)]: it can be
    missing, hold [None], or hold a value. *)
Inductive Attr (A : Type) :=
| Absent
| IsNone
| Value (a : A).
Arguments Absent {A}.
Arguments IsNone {A}.
Arguments Value {A} a.

(** [getattr(obj, name, default)]; the result is a Python value that is
    [None] or of type [A]. *)
Definition getattr {A : Type} (a : Attr A) (default : option A) : option A :=
  match a with
  | Absent => default
  | IsNone => None
  | Value v => Some v
  end.

(** Truth value of a [str]-or-[None] object: [None] and the empty string
    are false. *)
Definition truthy (o : option string) : bool :=
  match o with
  | None => false
  | Some EmptyString => false
  | Some (String _ _) => true
  end.

(** A module object: its identity and its [__file__] attribute. *)
Record ModuleType := mkModule { mod_id : nat; mod_file : Attr string }.

#[global] Instance ExcClass_eq_dec : EqDecision ExcClass.
Proof. solve_decision. Defined.
#[global] Instance Exc_eq_dec : EqDecision Exc.
Proof. solve_decision. Defined.
#[global] Instance Attr_eq_dec {A} `{EqDecision A} : EqDecision (Attr A).
Proof. solve_decision. Defined.
#[global] Instance ModuleType_eq_dec : EqDecision ModuleType.
Proof. solve_decision. Defined.

(** ** Strings *)

(** [s.replace(old, new)] for one-character [old] and [new]. *)
Fixpoint str_replace (old new : Ascii.ascii) (s : string) : string :=
  match s with
  | EmptyString => EmptyString
  | String c r =>
      String (if Ascii.eqb c old then new else c) (str_replace old new r)
  end.

(** [s[n:]] *)
Fixpoint str_drop (n : nat) (s : string) : string :=
  match n, s with
  | O, _ => s
  | S _, EmptyString => EmptyString
  | S k, String _ r => str_drop k r
  end.

(** [s.endswith(suffix)] *)
Definition endswith (s suffix : string) : bool :=
  String.eqb (str_drop (String.length s - String.length suffix) s) suffix.

(** [sub in s] *)
Definition contains (s sub : string) : Prop :=
  exists a b : string, s = a +:+ sub +:+ b.

(** ** Paths *)

(** A [pathlib.Path]: the anchor (drive and root) and the components
    after it. *)
Record PyPath := mkPath { anchor : string; segments : list string }.

#[global] Instance PyPath_eq_dec : EqDecision PyPath.
Proof. solve_decision. Defined.

(** [p.parent]: the last component is dropped; a path with no component
    after the anchor is its own parent. *)
Definition parent (p : PyPath) : PyPath :=
  mkPath (anchor p) (removelast (segments p)).

Fixpoint is_prefix (l1 l2 : list string) : bool :=
  match l1, l2 with
  | [], _ => true
  | _ :: _, [] => false
  | x :: r1, y :: r2 => String.eqb x y && is_prefix r1 r2
  end.

(** [self.is_relative_to(other)]: same anchor, and the components of
    [other] start those of [self]. *)
Definition is_relative_to (self other : PyPath) : bool :=
  String.eqb (anchor self) (anchor other) && is_prefix (segments other) (segments self).

(** ** Interpreter state *)

Record VersionInfo := mkVersion { major : nat; minor : nat; micro : nat }.

(** The part of the interpreter the resolver touches.  [world] stands for
    everything else imported code can read or change (the filesystem,
    other modules' globals). *)
Record Sys (W : Type) := mkSys {
  sys_path : list string;
  sys_modules : gmap string (option ModuleType);
  sys_executable : Attr string;
  sys_version_info : VersionInfo;
  world : W
}.
Arguments mkSys {W} _ _ _ _ _.
Arguments sys_path {W} _.
Arguments sys_modules {W} _.
Arguments sys_executable {W} _.
Arguments sys_version_info {W} _.
Arguments world {W} _.

(** [sys.path = l] *)
Definition set_sys_path {W} (l : list string) (s : Sys W) : Sys W :=
  mkSys l (sys_modules s) (sys_executable s) (sys_version_info s) (world s).

Definition set_sys_modules {W} (d : gmap string (option ModuleType)) (s : Sys W) : Sys W :=
  mkSys (sys_path s) d (sys_executable s) (sys_version_info s) (world s).

(** [d.get(k)]: [None] both for a missing key and for a key bound to
    [None]. *)
Definition dict_get (d : gmap string (option ModuleType)) (k : string) : option ModuleType :=
  match d !! k with
  | Some v => v
  | None => None
  end.

(** [k in d] *)
Definition dict_contains (d : gmap string (option ModuleType)) (k : string) : bool :=
  match d !! k with
  | Some _ => true
  | None => false
  end.

(** [sys.modules[k] = m] *)
Definition modules_setitem {W} (k : string) (m : ModuleType) (s : Sys W) : Sys W :=
  set_sys_modules (<[k := Some m]> (sys_modules s)) s.

(** [del sys.modules[k]] for a key that is present. *)
Definition modules_delitem {W} (k : string) (s : Sys W) : Sys W :=
  set_sys_modules (delete k (sys_modules s)) s.

(** ** The environment *)

(** An installed distribution ([importlib.metadata.Distribution]):
    [dist.files] (which reads the record of installed files and can fail,
    or give [None]) with every entry as [str(f)], and
    [Path(dist.locate_file(f))]. *)
Record Dist := mkDist {
  dist_files : Outcome Exc (option (list string));
  locate_file : string -> PyPath
}.

(** An import spec: [spec.name], [spec.origin] and [spec.loader], which
    may be [None]; a loader is known by a number. *)
Record ModuleSpec := mkSpec {
  spec_name : string;
  spec_origin : PyPath;
  spec_loader : option nat
}.

(** What the resolver calls and does not define.  Calls that run foreign
    code ([import_module], [exec_module]) return a new interpreter state;
    the others only read it. *)
Record Env (W : Type) := mkEnv {
  (** [__file__] of [_samgeo_lib.py] *)
  module_file : string;
  (** [Path(s)] *)
  Path : string -> PyPath;
  (** [p.resolve()] *)
  resolve : Sys W -> PyPath -> Outcome Exc PyPath;
  (** [importlib.import_module(name)] *)
  import_module : string -> Sys W -> Outcome Exc ModuleType * Sys W;
  (** [importlib.metadata.distribution(name)] *)
  distribution : Sys W -> string -> Outcome Exc Dist;
  (** [importlib.util.spec_from_file_location(name, str(path),
      submodule_search_locations=[str(dir)])] *)
  spec_from_file_location :
    Sys W -> string -> PyPath -> list PyPath -> Outcome Exc (option ModuleSpec);
  (** [importlib.util.module_from_spec(spec)] *)
  module_from_spec : Sys W -> ModuleSpec -> Outcome Exc ModuleType;
  (** [loader.exec_module(module)] *)
  exec_module : nat -> ModuleType -> Sys W -> Outcome Exc unit * Sys W
}.
Arguments module_file {W} _.
Arguments Path {W} _ _.
Arguments resolve {W} _ _ _.
Arguments import_module {W} _ _ _.
Arguments distribution {W} _ _ _.
Arguments spec_from_file_location {W} _ _ _ _ _.
Arguments module_from_spec {W} _ _ _.
Arguments exec_module {W} _ _ _ _.

(** ** State and exceptions *)

(** A computation over a state [S] that returns an [A] or raises an
    [E]. *)
Definition M (S E A : Type) : Type := S -> Outcome E A * S.

Definition ret {S E A} (a : A) : M S E A := fun s => (Return a, s).

Definition raise {S E A} (e : E) : M S E A := fun s => (Raise e, s).

Definition bind {S E A B} (c : M S E A) (k : A -> M S E B) : M S E B :=
  fun s =>
    match c s with
    | (Return a, s') => k a s'
    | (Raise e, s') => (Raise e, s')
    end.

Notation "'let!' x := c 'in' k" := (bind c (fun x => k))
  (at level 10, x name, c at level 200, k at level 200).

(** Reading the state. *)
Definition gets {S E A} (f : S -> A) : M S E A := fun s => (Return (f s), s).

(** A call that reads the state and may raise. *)
Definition call {S E A} (f : S -> Outcome E A) : M S E A := fun s => (f s, s).

(** A statement that changes the state and cannot raise. *)
Definition modify {S E} (f : S -> S) : M S E unit := fun s => (Return tt, f s).

(** [try: c  except <the classes accepted by catches>: h] *)
Definition try_except {S A} (c : M S Exc A) (catches : ExcClass -> bool) (h : M S Exc A)
  : M S Exc A :=
  fun s =>
    match c s with
    | (Return a, s') => (Return a, s')
    | (Raise e, s') => if catches (exc_class e) then h s' else (Raise e, s')
    end.

(** [try: c  finally: f], for an [f] that cannot raise: [f] runs on every
    exit and the outcome of [c] is kept. *)
Definition try_finally {S E A} (c : M S E A) (f : S -> S) : M S E A :=
  fun s => let '(r, s') := c s in (r, f s').

(** ** The source functions *)

Section Resolver.
Context {W : Type} (env : Env W).

(** [_is_module_from_dir(mod, directory)] *)
Definition _is_module_from_dir (mod_ : ModuleType) (directory : PyPath) : M (Sys W) Exc bool :=
  try_except
    (match getattr (mod_file mod_) None with
     | None => ret false
     | Some f =>
         if negb (truthy (Some f)) then ret false
         else
           let! p := call (fun s => resolve env s (Path env f)) in
           let! d := call (fun s => resolve env s directory) in
           ret (is_relative_to p d)
     end)
    is_Exception
    (ret false).

(** [[p for p in l if Path(p).resolve() != plugin_parent.resolve()]] *)
Fixpoint without_plugin_parent (plugin_parent : PyPath) (l : list string)
  : M (Sys W) Exc (list string) :=
  match l with
  | [] => ret []
  | p :: rest =>
      let! a := call (fun s => resolve env s (Path env p)) in
      let! b := call (fun s => resolve env s plugin_parent) in
      let! kept := without_plugin_parent plugin_parent rest in
      ret (if bool_decide (a <> b) then p :: kept else kept)
  end.

(** The [finally] block of [_import_samgeo_without_plugin_shadow]. *)
Definition restore_import_state (orig_sys_path : list string)
    (orig_samgeo_mod : option ModuleType) (s : Sys W) : Sys W :=
  let s1 := set_sys_path orig_sys_path s in
  match orig_samgeo_mod with
  | Some m => modules_setitem "samgeo" m s1
  | None => s1
  end.

(** The [try] ... [except Exception] part of
    [_import_samgeo_without_plugin_shadow]. *)
Definition import_without_shadow_body (plugin_pkg_dir plugin_parent : PyPath)
  : M (Sys W) Exc (option ModuleType) :=
  try_except
    (let! cur := gets sys_path in
     let! new_path := without_plugin_parent plugin_parent cur in
     let! _ := modify (set_sys_path new_path) in
     let! _ := modify (fun s =>
                 if dict_contains (sys_modules s) "samgeo"
                 then modules_delitem "samgeo" s else s) in
     let! imported := import_module env "samgeo" in
     let! shadow := _is_module_from_dir imported plugin_pkg_dir in
     if shadow then ret None else ret (Some imported))
    is_Exception
    (ret None).

(** [_import_samgeo_without_plugin_shadow(plugin_pkg_dir)] *)
Definition _import_samgeo_without_plugin_shadow (plugin_pkg_dir : PyPath)
  : M (Sys W) Exc (option ModuleType) :=
  fun s =>
    let plugin_parent := parent plugin_pkg_dir in
    let orig_sys_path := sys_path s in
    let orig_samgeo_mod := dict_get (sys_modules s) "samgeo" in
    try_finally
      (import_without_shadow_body plugin_pkg_dir plugin_parent)
      (restore_import_state orig_sys_path orig_samgeo_mod)
      s.

(** The loop of [_load_external_samgeo_from_dist] over [files]: the first
    entry [f] with [str(f).replace("\", "/").endswith("samgeo/__init__.py")],
    or [None]. *)
Fixpoint find_init (files : list string) : option string :=
  match files with
  | [] => None
  | f :: rest =>
      if endswith (str_replace "\"%char "/"%char f) "samgeo/__init__.py"
      then Some f
      else find_init rest
  end.

Definition alias_name : string := "samgeo_external".

(** [_load_external_samgeo_from_dist(dist_name)] *)
Definition _load_external_samgeo_from_dist (dist_name : string)
  : M (Sys W) Exc (option ModuleType) :=
  let! found :=
    try_except
      (let! d := call (fun s => distribution env s dist_name) in ret (Some d))
      is_PackageNotFoundError
      (ret None) in
  match found with
  | None => ret None
  | Some dist =>
      let! listed := call (fun _ => dist_files dist) in
      let files := default [] listed in
      match find_init files with
      | None => ret None
      | Some init_rel =>
          let! init_path := call (fun s => resolve env s (locate_file dist init_rel)) in
          let pkg_dir := parent init_path in
          let! existing := gets (fun s => dict_get (sys_modules s) alias_name) in
          match existing with
          | Some m => ret (Some m)
          | None =>
              let! spec :=
                call (fun s => spec_from_file_location env s alias_name init_path [pkg_dir]) in
              match spec with
              | None => ret None
              | Some sp =>
                  match spec_loader sp with
                  | None => ret None
                  | Some loader =>
                      let! module := call (fun s => module_from_spec env s sp) in
                      let! _ := modify (modules_setitem alias_name module) in
                      let! _ := exec_module env loader module in
                      ret (Some module)
                  end
              end
          end
      end
  end.

(** The module's state: its global [_CACHED] next to the interpreter
    state.  Foreign code reaches the latter only. *)
Record St := mkSt { _CACHED : option ModuleType; sys : Sys W }.

(** What [get_samgeo] raises.  The [ImportError] that its own [raise]
    statement builds is a fresh exception object; it is kept apart from
    the exceptions that reach [get_samgeo] from the calls it makes, which
    may be of the same class and carry any message. *)
Inductive Raised :=
| Propagated (e : Exc)
| ResolutionError (msg : string).

(** The exception object a caller of [get_samgeo] catches. *)
Definition exc_of (r : Raised) : Exc :=
  match r with
  | Propagated e => e
  | ResolutionError msg => mkExc ImportError msg
  end.

(** A call of one of the helpers from [get_samgeo]. *)
Definition lift {A} (c : M (Sys W) Exc A) : M St Raised A :=
  fun st =>
    match c (sys st) with
    | (Return a, s') => (Return a, mkSt (_CACHED st) s')
    | (Raise e, s') => (Raise (Propagated e), mkSt (_CACHED st) s')
    end.

(** [_CACHED = m] *)
Definition set_CACHED (m : ModuleType) : M St Raised unit :=
  modify (fun st => mkSt (Some m) (sys st)).

Definition nl : string := String "010"%char EmptyString.

(** [f"{x}"] for a [str]-or-[None] object. *)
Definition format_str (o : option string) : string :=
  match o with
  | Some s => s
  | None => "None"
  end.

(** [f"{v.major}.{v.minor}.{v.micro}"] *)
Definition format_version (v : VersionInfo) : string :=
  pretty (major v) +:+ "." +:+ pretty (minor v) +:+ "." +:+ pretty (micro v).

Definition remediation : string :=
  "Fix: install the SamGeo Python package into *this same Python environment*." +:+ nl +:+
  "In QGIS, open Python Console and run:" +:+ nl +:+
  "  import sys, subprocess" +:+ nl +:+
  "  subprocess.check_call([sys.executable, '-m', 'pip', 'install', '--user', 'samgeo'])" +:+ nl.

(** The text of the final [ImportError]. *)
Definition resolution_message (py ver : string) : string :=
  "SamGeo plugin could not import the external 'samgeo' library because the plugin " +:+
  "package name shadows it." +:+ nl +:+ nl +:+
  "QGIS Python:" +:+ nl +:+ "  executable: " +:+ py +:+ nl +:+
  "  version: " +:+ ver +:+ nl +:+ nl +:+
  remediation.

(** The end of [get_samgeo]: the statements after the loop. *)
Definition get_samgeo_raise : M St Raised ModuleType :=
  let! py := gets (fun st => getattr (sys_executable (sys st)) (Some "python")) in
  let! ver := gets (fun st => format_version (sys_version_info (sys st))) in
  raise (ResolutionError (resolution_message (format_str py) ver)).

(** [for dist_name in dist_names: ...] of [get_samgeo], and what follows
    it. *)
Fixpoint get_samgeo_from_dists (dist_names : list string) : M St Raised ModuleType :=
  match dist_names with
  | [] => get_samgeo_raise
  | dist_name :: rest =>
      let! ext := lift (_load_external_samgeo_from_dist dist_name) in
      match ext with
      | Some m => let! _ := set_CACHED m in ret m
      | None => get_samgeo_from_dists rest
      end
  end.

(** [get_samgeo] from the call of
    [_import_samgeo_without_plugin_shadow] on. *)
Definition get_samgeo_retry (plugin_dir : PyPath) : M St Raised ModuleType :=
  let! imported := lift (_import_samgeo_without_plugin_shadow plugin_dir) in
  match imported with
  | Some m => let! _ := set_CACHED m in ret m
  | None => get_samgeo_from_dists ["samgeo"; "samgeo-py"]
  end.

(** The first [try] statement of [get_samgeo]: the module it returns, or
    [None] when control leaves the statement without a [return].  The
    assignment to [_CACHED] that precedes the [return] cannot raise; it
    is made by [get_samgeo] below. *)
Definition get_samgeo_normal_import (plugin_dir : PyPath) : M (Sys W) Exc (option ModuleType) :=
  try_except
    (let! imported := import_module env "samgeo" in
     let! shadow := _is_module_from_dir imported plugin_dir in
     if negb shadow then ret (Some imported) else ret None)
    is_Exception
    (ret None).

(** [get_samgeo()] *)
Definition get_samgeo : M St Raised ModuleType :=
  let! cached := gets _CACHED in
  match cached with
  | Some m => ret m
  | None =>
      let! here := lift (call (fun s => resolve env s (Path env (module_file env)))) in
      let plugin_dir := parent here in
      let! first := lift (get_samgeo_normal_import plugin_dir) in
      match first with
      | Some m => let! _ := set_CACHED m in ret m
      | None => get_samgeo_retry plugin_dir
      end
  end.

End Resolver.

(** [env] with another metadata lookup. *)
Definition with_distribution {W} (env : Env W)
    (lookup : Sys W -> string -> Outcome Exc Dist) : Env W :=
  mkEnv W (module_file env) (Path env) (resolve env) (import_module env) lookup
    (spec_from_file_location env) (module_from_spec env) (exec_module env).

Arguments St W : clear implicits.
Arguments mkSt {W} _ _.
Arguments _CACHED {W} _.
Arguments sys {W} _.

(** ** A reference interpreter

    A table-driven instance of the environment, on which the functions
    run: POSIX paths on a filesystem without symbolic links, packages
    found along [sys.path], installed distributions, and files whose
    resolution, loading or execution fails. *)

Module Reference.

(** The components of a POSIX path string; [acc] holds the component
    being read. *)
Fixpoint components (acc s : string) : list string :=
  match s with
  | EmptyString => if String.eqb acc EmptyString then [] else [acc]
  | String c r =>
      if Ascii.eqb c "/"%char
      then (if String.eqb acc EmptyString then components EmptyString r
            else acc :: components EmptyString r)
      else components (acc +:+ String c EmptyString) r
  end.

(** [Path(s)]: empty components and [.] are dropped. *)
Definition posix_path (s : string) : PyPath :=
  mkPath (if String.prefix "/" s then "/" else EmptyString)
    (filter (fun x => x <> ".") (components EmptyString s)).

(** The components with every [..] applied; [stack] holds, last first,
    the components kept so far.  At the root [..] stays at the root. *)
Fixpoint normalize (stack l : list string) : list string :=
  match l with
  | [] => rev stack
  | x :: r =>
      if String.eqb x ".." then normalize (List.tl stack) r else normalize (x :: stack) r
  end.

Fixpoint join (l : list string) : string :=
  match l with
  | [] => EmptyString
  | [x] => x
  | x :: r => x +:+ "/" +:+ join r
  end.

Definition path_str (p : PyPath) : string := anchor p +:+ join (segments p).

Fixpoint assoc {K V} `{EqDecision K} (k : K) (l : list (K * V)) : option V :=
  match l with
  | [] => None
  | (k', v) :: r => if bool_decide (k' = k) then Some v else assoc k r
  end.

Record Disk := mkDisk {
  (** the file that holds the resolver *)
  here : string;
  (** the [samgeo] package importable from a [sys.path] entry *)
  packages : list (string * ModuleType);
  (** an exception every import raises, if any *)
  import_raises : option Exc;
  (** paths whose resolution fails *)
  broken : list PyPath;
  (** installed distributions *)
  dists : list (string * Dist);
  (** files for which no loader is found *)
  no_loader : list PyPath;
  (** identity of the next module object created *)
  fresh : nat;
  (** modules whose code raises when executed *)
  failing : list (nat * Exc)
}.

(** The first package along the path. *)
Fixpoint find_package (pk : list (string * ModuleType)) (path : list string)
  : option ModuleType :=
  match path with
  | [] => None
  | p :: r =>
      match assoc p pk with
      | Some m => Some m
      | None => find_package pk r
      end
  end.

Definition not_found (name : string) : Exc :=
  mkExc ModuleNotFoundError ("No module named " +:+ name).

(** An import: the entry of [sys.modules] if there is one, else the first
    package along [sys.path], which is then registered. *)
Definition import_ref (d : Disk) (name : string) (s : Sys unit)
  : Outcome Exc ModuleType * Sys unit :=
  match import_raises d with
  | Some e => (Raise e, s)
  | None =>
      match sys_modules s !! name with
      | Some (Some m) => (Return m, s)
      | Some None => (Raise (not_found name), s)
      | None =>
          match find_package (packages d) (sys_path s) with
          | Some m => (Return m, modules_setitem name m s)
          | None => (Raise (not_found name), s)
          end
      end
  end.

(** [p.resolve()] on a filesystem without symbolic links whose working
    directory is the root: the path is made absolute and [..] is
    applied. *)
Definition resolve_ref (d : Disk) (s : Sys unit) (p : PyPath) : Outcome Exc PyPath :=
  if bool_decide (p ∈ broken d) then Raise (mkExc OSError (path_str p))
  else Return (mkPath "/" (normalize [] (segments p))).

Definition distribution_ref (d : Disk) (s : Sys unit) (name : string) : Outcome Exc Dist :=
  match assoc name (dists d) with
  | Some x => Return x
  | None => Raise (mkExc PackageNotFoundError name)
  end.

Definition spec_ref (d : Disk) (s : Sys unit) (name : string) (p : PyPath)
    (search : list PyPath) : Outcome Exc (option ModuleSpec) :=
  if bool_decide (p ∈ no_loader d) then Return None
  else Return (Some (mkSpec name p (Some 0))).

Definition module_ref (d : Disk) (s : Sys unit) (sp : ModuleSpec) : Outcome Exc ModuleType :=
  Return (mkModule (fresh d) (Value (path_str (spec_origin sp)))).

Definition exec_ref (d : Disk) (loader : nat) (m : ModuleType) (s : Sys unit)
  : Outcome Exc unit * Sys unit :=
  match assoc (mod_id m) (failing d) with
  | Some e => (Raise e, s)
  | None => (Return tt, s)
  end.

Definition env_of (d : Disk) : Env unit :=
  mkEnv unit (here d) posix_path (resolve_ref d) (import_ref d) (distribution_ref d)
    (spec_ref d) (module_ref d) (exec_ref d).

(** The layout of the specification's scenario: the plugin package
    [/plugins/samgeo] and the library in [/site-packages/samgeo]. *)
Definition plugin_pkg : ModuleType := mkModule 1 (Value "/plugins/samgeo/__init__.py").
Definition external_pkg : ModuleType := mkModule 2 (Value "/site-packages/samgeo/__init__.py").
Definition namespace_pkg : ModuleType := mkModule 3 IsNone.

Definition site_dist : Dist :=
  mkDist (Return (Some ["samgeo-1.0.dist-info/RECORD"; "samgeo/__init__.py"; "samgeo/common.py"]))
    (fun f => posix_path ("/site-packages/" +:+ f)).


(** Plugin and library both importable, nothing installed as a
    distribution. *)
Definition disk_both : Disk :=
  mkDisk "/plugins/samgeo/_samgeo_lib.py"
    [("/plugins", plugin_pkg); ("/site-packages", external_pkg)] None [] [] [] 7 [].

(** Only the plugin importable; the library is known to the metadata. *)
Definition disk_dist : Disk :=
  mkDisk "/plugins/samgeo/_samgeo_lib.py"
    [("/plugins", plugin_pkg)] None [] [("samgeo", site_dist)] [] 7 [].

(** As [disk_dist], and the code of the library raises when executed. *)
Definition disk_dist_failing : Disk :=
  mkDisk "/plugins/samgeo/_samgeo_lib.py"
    [("/plugins", plugin_pkg)] None [] [("samgeo", site_dist)] []
    7 [(7, mkExc RuntimeError "missing dependency")].

Definition alt_dist : Dist :=
  mkDist (Return (Some ["samgeo_py-1.0.dist-info/RECORD"; "samgeo/__init__.py"]))
    (fun f => posix_path ("/alt/" +:+ f)).

(** Both distributions installed; no loader accepts the initializer of
    the first. *)
Definition disk_two_dists : Disk :=
  mkDisk "/plugins/samgeo/_samgeo_lib.py"
    [("/plugins", plugin_pkg)] None [] [("samgeo", site_dist); ("samgeo-py", alt_dist)]
    [posix_path "/site-packages/samgeo/__init__.py"] 7 [].

(** The library importable from [/site-packages], the distribution
    [samgeo] installed without a record of its files, and a path entry
    [/gone] that cannot be resolved. *)
Definition disk_installed : Disk :=
  mkDisk "/plugins/samgeo/_samgeo_lib.py"
    [("/plugins", plugin_pkg); ("/site-packages", external_pkg)] None
    [posix_path "/gone"]
    [("samgeo", mkDist (Return None) (fun f => posix_path ("/site-packages/" +:+ f)))]
    [] 7 [].

Definition sys0 (path : list string) (modules : gmap string (option ModuleType)) : Sys unit :=
  mkSys path modules (Value "/usr/bin/python3") (mkVersion 3 12 4) tt.

Definition plugin_dir : PyPath := mkPath "/" ["plugins"; "samgeo"].

End Reference.

Arguments get_samgeo {W} env _.
Arguments get_samgeo_retry {W} env plugin_dir _.
Arguments get_samgeo_from_dists {W} env dist_names _.
Arguments get_samgeo_normal_import {W} env plugin_dir _.

(** ** The properties to prove *)

(** The words of the specification: the path [p] is a path-prefix
    descendant of the directory [d]. *)
Definition path_descendant (p d : PyPath) : Prop :=
  exists rest, p = mkPath (anchor d) (segments d ++ rest).

(** The claim as the specification words it: after the call the search
    path and the entry of the module cache for [samgeo] are what they
    were before it. *)
Definition restores_exactly {W} (env : Env W) (plugin_pkg_dir : PyPath) (s : Sys W) : Prop :=
  let s' := snd (_import_samgeo_without_plugin_shadow env plugin_pkg_dir s) in
  sys_path s' = sys_path s /\ sys_modules s' !! "samgeo" = sys_modules s !! "samgeo".

(** The text [get_samgeo] gives its [ImportError] in the interpreter
    state [s]. *)
Definition diagnostic {W} (s : Sys W) : string :=
  resolution_message (format_str (getattr (sys_executable s) (Some "python")))
    (format_version (sys_version_info s)).

(** Every strategy returns [None].  From the state [st] with an empty
    cache slot, the normal import yields no module to keep, then the
    path-suppressed retry returns [None], then the load from the
    distribution [samgeo] and the load from the distribution [samgeo-py]
    both return [None]; [st'] is the state reached. *)
Definition all_strategies_fail {W} (env : Env W) (st st' : St W) : Prop :=
  _CACHED st = None /\
  exists here s1 s2 s3 s4,
    resolve env (sys st) (Path env (module_file env)) = Return here /\
    get_samgeo_normal_import env (parent here) (sys st) = (Return None, s1) /\
    _import_samgeo_without_plugin_shadow env (parent here) s1 = (Return None, s2) /\
    _load_external_samgeo_from_dist env "samgeo" s2 = (Return None, s3) /\
    _load_external_samgeo_from_dist env "samgeo-py" s3 = (Return None, s4) /\
    st' = mkSt None s4.

(** The module [md] has no usable origin in the state [s]: its
    [__file__] is missing or [None], or resolving it, or resolving the
    directory [d] after it, raises an exception of class [Exception]. *)
Definition no_origin {W} (env : Env W) (s : Sys W) (md : ModuleType) (d : PyPath) : Prop :=
  mod_file md = Absent \/
  mod_file md = IsNone \/
  exists f e,
    mod_file md = Value f /\ is_Exception (exc_class e) = true /\
    (resolve env s (Path env f) = Raise e \/
     (exists p, resolve env s (Path env f) = Return p) /\ resolve env s d = Raise e).


(** The words of the specification: the relative path [f], with
    backslashes turned into forward slashes, ends with
    [samgeo/__init__.py]. *)
Definition is_initializer (f : string) : Prop :=
  exists pre, str_replace "\"%char "/"%char f = pre +:+ "samgeo/__init__.py".

(** In the state [s] the metadata of the distribution [name] lists the
    initializer [init_rel], which resolves to [init_path]: the call
    reaches the test of [sys.modules] for the alias. *)
Definition finds_initializer {W} (env : Env W) (name : string) (s : Sys W)
    (dist : Dist) (init_rel : string) (init_path : PyPath) : Prop :=
  distribution env s name = Return dist /\
  (exists listed,
     dist_files dist = Return listed /\ find_init (default [] listed) = Some init_rel) /\
  resolve env s (locate_file dist init_rel) = Return init_path.

(** The claim as the specification words it: when the metadata of the
    first candidate yields a matching initializer file, the first
    candidate wins. *)
Definition first_match_wins {W} (env : Env W) (s : Sys W) : Prop :=
  forall dist init_rel init_path,
    finds_initializer env "samgeo" s dist init_rel init_path ->
    exists m s1,
      _load_external_samgeo_from_dist env "samgeo" s = (Return (Some m), s1) /\
      get_samgeo_from_dists env ["samgeo"; "samgeo-py"] (mkSt None s)
        = (Return m, mkSt (Some m) s1).

(** The state in which [_import_samgeo_without_plugin_shadow] calls the
    import when the comprehension gave [kept]: after [sys.path = kept]
    and the conditional [del sys.modules["samgeo"]]. *)
Definition retry_import_state {W} (kept : list string) (s : Sys W) : Sys W :=
  let s1 := set_sys_path kept s in
  if dict_contains (sys_modules s1) "samgeo" then modules_delitem "samgeo" s1 else s1.

(** The module [m] is shadowed in the state [s]: its [__file__] is a
    non-empty string that resolves, the directory [d] resolves, and the
    file is a path-prefix descendant of the directory. *)
Definition shadowed {W} (env : Env W) (m : ModuleType) (d : PyPath) (s : Sys W) : Prop :=
  exists f pf pd,
    mod_file m = Value f /\ f <> EmptyString /\
    resolve env s (Path env f) = Return pf /\
    resolve env s d = Return pd /\
    path_descendant pf pd.

(** An import of [samgeo] from the state [s] gives no module to keep and
    leaves the state [s1]: it raises an exception of class [Exception],
    or it returns a module that is shadowed by the directory [d]. *)
Definition import_rejected {W} (env : Env W) (d : PyPath) (s s1 : Sys W) : Prop :=
  (exists e,
     import_module env "samgeo" s = (Raise e, s1) /\
     is_Exception (exc_class e) = true) \/
  (exists m, import_module env "samgeo" s = (Return m, s1) /\ shadowed env m d s1).

(** The retry from the state [s] gives no module and leaves the state
    [s2]: an entry of [sys.path], or the plugin's parent, does not
    resolve (an [Exception]) and nothing changes; or the import with the
    filtered path is rejected and the [finally] block is applied to the
    state it left. *)
Definition retry_rejected {W} (env : Env W) (d : PyPath) (s s2 : Sys W) : Prop :=
  (exists e,
     fst (without_plugin_parent env (parent d) (sys_path s) s) = Raise e /\
     is_Exception (exc_class e) = true /\ s2 = s) \/
  (exists kept s1,
     fst (without_plugin_parent env (parent d) (sys_path s) s) = Return kept /\
     import_rejected env d (retry_import_state kept s) s1 /\
     s2 = restore_import_state (sys_path s) (dict_get (sys_modules s) "samgeo") s1).

(** The distribution [name] gives no module in the state [s]: it is not
    installed (the lookup raises [PackageNotFoundError]); or it is
    installed and its file listing has no initializer; or the
    initializer is found, the alias is unbound, and no import spec, or a
    spec without loader, is obtained for the file. *)
Definition load_misses {W} (env : Env W) (name : string) (s : Sys W) : Prop :=
  (exists e,
     distribution env s name = Raise e /\
     is_PackageNotFoundError (exc_class e) = true) \/
  (exists dist listed,
     distribution env s name = Return dist /\
     dist_files dist = Return listed /\
     Forall (fun g => ~ is_initializer g) (default [] listed)) \/
  (exists dist init_rel init_path,
     finds_initializer env name s dist init_rel init_path /\
     dict_get (sys_modules s) alias_name = None /\
     (spec_from_file_location env s alias_name init_path [parent init_path] = Return None \/
      exists sp,
        spec_from_file_location env s alias_name init_path [parent init_path]
          = Return (Some sp) /\
        spec_loader sp = None)).

(** The claim as the specification words it, in the direction that
    fails: when [get_samgeo] raises its final error, no distribution is
    installed under either candidate name, and no import of [samgeo]
    returns a module that the shadow check against the plugin directory
    accepts. *)
Definition final_error_means_nothing_found {W} (env : Env W) (st : St W) : Prop :=
  forall msg st',
    get_samgeo env st = (Raise (ResolutionError msg), st') ->
    (forall name,
       name = "samgeo" \/ name = "samgeo-py" ->
       exists e,
         distribution env (sys st) name = Raise e /\
         is_PackageNotFoundError (exc_class e) = true) /\
    (forall here s m s1,
       resolve env (sys st) (Path env (module_file env)) = Return here ->
       import_module env "samgeo" s = (Return m, s1) ->
       _is_module_from_dir env m (parent here) s1 <> (Return false, s1)).

(** ** Strings and paths *)

Lemma str_app_cons (x : Ascii.ascii) (a b : string) :
  String x a +:+ b = String x (a +:+ b).
Proof. reflexivity. Qed.

Lemma str_app_assoc (a b c : string) : (a +:+ b) +:+ c = a +:+ (b +:+ c).
Proof.
  induction a as [|x a IH]; [reflexivity|].
  rewrite !str_app_cons. f_equal. exact IH.
Qed.

Lemma str_length_app (a b : string) :
  String.length (a +:+ b) = String.length a + String.length b.
Proof.
  induction a as [|x a IH]; [reflexivity|].
  rewrite str_app_cons. simpl. f_equal. exact IH.
Qed.

Lemma str_drop_app (a b : string) : str_drop (String.length a) (a +:+ b) = b.
Proof.
  induction a as [|x a IH]; [reflexivity|].
  rewrite str_app_cons. simpl. exact IH.
Qed.

Lemma str_drop_split (n : nat) (s : string) : exists pre, s = pre +:+ str_drop n s.
Proof.
  revert s; induction n as [|n IH]; intros s.
  - exists EmptyString. reflexivity.
  - destruct s as [|c s]; simpl.
    + exists EmptyString. reflexivity.
    + destruct (IH s) as [pre Hpre]. exists (String c pre).
      rewrite str_app_cons. f_equal. exact Hpre.
Qed.

(** [endswith] decides "ends with the suffix". *)
Lemma endswith_spec (s suffix : string) :
  endswith s suffix = true <-> exists pre, s = pre +:+ suffix.
Proof.
  unfold endswith. rewrite String.eqb_eq. split.
  - intros H. destruct (str_drop_split (String.length s - String.length suffix) s) as [pre Hp].
    exists pre. now rewrite H in Hp.
  - intros [pre ->]. rewrite str_length_app.
    replace (String.length pre + String.length suffix - String.length suffix)
      with (String.length pre) by lia.
    apply str_drop_app.
Qed.

(** [str_replace] changes every occurrence of [old] and nothing else. *)
Lemma str_replace_get (old new : Ascii.ascii) (s : string) (i : nat) :
  String.get i (str_replace old new s)
  = (fun c => if Ascii.eqb c old then new else c) <$> String.get i s.
Proof.
  revert i; induction s as [|c s IH]; intros i; simpl; [reflexivity|].
  destruct i; simpl; [reflexivity | apply IH].
Qed.

Lemma is_prefix_spec (l1 l2 : list string) :
  is_prefix l1 l2 = true <-> exists rest, l2 = l1 ++ rest.
Proof.
  revert l2; induction l1 as [|x l1 IH]; intros l2; simpl.
  - split; [intros _; now exists l2 | reflexivity].
  - destruct l2 as [|y l2].
    + split; [discriminate | intros [rest H]; discriminate].
    + rewrite andb_true_iff, String.eqb_eq, IH. split.
      * intros [-> [rest ->]]. now exists rest.
      * intros [rest H]. injection H as -> ->. split; [reflexivity | now exists rest].
Qed.

Lemma is_relative_to_spec (p d : PyPath) :
  is_relative_to p d = true <-> path_descendant p d.
Proof.
  unfold is_relative_to, path_descendant.
  rewrite andb_true_iff, String.eqb_eq, is_prefix_spec. destruct p as [a t]; simpl. split.
  - intros [-> [rest ->]]. now exists rest.
  - intros [rest H]. injection H as -> ->. split; [reflexivity | now exists rest].
Qed.

Lemma is_relative_to_false (p d : PyPath) :
  is_relative_to p d = false <-> ~ path_descendant p d.
Proof.
  rewrite <- is_relative_to_spec. destruct (is_relative_to p d); split; congruence.
Qed.

(** ** The path-suppressed retry restores its changes *)

(** C1, as amended.  Whatever the retry does (it returns a module, returns
    [None], or lets an exception pass), [sys.path] is afterwards the list
    it was before the call, entry for entry, and if [sys.modules] held a
    module under [samgeo] before the call it holds that module
    afterwards.  If it held none, [sys.modules] is left as the [try]
    statement left it: an entry made by the import stays. *)
Theorem import_without_shadow_restores {W} (env : Env W) (plugin_pkg_dir : PyPath)
    (s : Sys W) r s' :
  _import_samgeo_without_plugin_shadow env plugin_pkg_dir s = (r, s') ->
  sys_path s' = sys_path s /\
  (forall m, dict_get (sys_modules s) "samgeo" = Some m ->
             sys_modules s' !! "samgeo" = Some (Some m)) /\
  (dict_get (sys_modules s) "samgeo" = None ->
   sys_modules s'
   = sys_modules
       (snd (import_without_shadow_body env plugin_pkg_dir (parent plugin_pkg_dir) s))).
Proof.
  unfold _import_samgeo_without_plugin_shadow, try_finally.
  destruct (import_without_shadow_body env plugin_pkg_dir (parent plugin_pkg_dir) s)
    as [r0 s0].
  intros [= <- <-]. unfold restore_import_state. split; [|split].
  - destruct (dict_get (sys_modules s) "samgeo"); reflexivity.
  - intros m ->. simpl. apply lookup_insert_eq.
  - intros ->. reflexivity.
Qed.

(** The retry is interrupted in the import: the exception passes, and the
    state is restored all the same. *)
Lemma import_without_shadow_restores_witness :
  let env := Reference.env_of
    (Reference.mkDisk "/plugins/samgeo/_samgeo_lib.py" [] (Some (mkExc KeyboardInterrupt "^C"))
       [] [] [] 7 []) in
  let s := Reference.sys0 ["/plugins"; "/site-packages"] {["samgeo" := Some Reference.plugin_pkg]} in
  let s' := Reference.sys0 ["/plugins"; "/site-packages"] {["samgeo" := Some Reference.plugin_pkg]} in
  _import_samgeo_without_plugin_shadow env Reference.plugin_dir s
    = (Raise (mkExc KeyboardInterrupt "^C"), s') /\
  sys_path s' = sys_path s /\
  (forall m, dict_get (sys_modules s) "samgeo" = Some m ->
             sys_modules s' !! "samgeo" = Some (Some m)).
Proof.
  intros env s s'.
  assert (H : _import_samgeo_without_plugin_shadow env Reference.plugin_dir s
              = (Raise (mkExc KeyboardInterrupt "^C"), s')).
  { vm_compute. reflexivity. }
  split; [exact H|].
  destruct (import_without_shadow_restores env Reference.plugin_dir s _ s' H)
    as (H1 & H2 & _).
  split; [exact H1 | exact H2].
Defined.

(** C1 fails as stated: with no entry for [samgeo] in [sys.modules]
    before the call, the successful retry leaves the imported library
    registered under that name. *)
Lemma import_without_shadow_leaves_entry :
  ~ restores_exactly (Reference.env_of Reference.disk_both) Reference.plugin_dir
      (Reference.sys0 ["/plugins"; "/site-packages"] ∅).
Proof.
  unfold restores_exactly. intros [_ H]. vm_compute in H. discriminate H.
Qed.

(** ** The control flow of [get_samgeo] *)

Lemma get_samgeo_from_dists_nil {W} (env : Env W) (st : St W) :
  get_samgeo_from_dists env [] st = get_samgeo_raise st.
Proof. reflexivity. Qed.

Lemma get_samgeo_from_dists_cons {W} (env : Env W) (n : string) (names : list string)
    (c : option ModuleType) (s : Sys W) :
  get_samgeo_from_dists env (n :: names) (mkSt c s)
  = match _load_external_samgeo_from_dist env n s with
    | (Return (Some m), s1) => (Return m, mkSt (Some m) s1)
    | (Return None, s1) => get_samgeo_from_dists env names (mkSt c s1)
    | (Raise e, s1) => (Raise (Propagated e), mkSt c s1)
    end.
Proof.
  simpl. unfold bind at 1, lift. simpl.
  destruct (_load_external_samgeo_from_dist env n s) as [[[m|]|e] s1]; reflexivity.
Qed.

Lemma get_samgeo_retry_eq {W} (env : Env W) (dir : PyPath) (c : option ModuleType) (s : Sys W) :
  get_samgeo_retry env dir (mkSt c s)
  = match _import_samgeo_without_plugin_shadow env dir s with
    | (Return (Some m), s1) => (Return m, mkSt (Some m) s1)
    | (Return None, s1) => get_samgeo_from_dists env ["samgeo"; "samgeo-py"] (mkSt c s1)
    | (Raise e, s1) => (Raise (Propagated e), mkSt c s1)
    end.
Proof.
  unfold get_samgeo_retry, bind at 1, lift. cbn [sys _CACHED].
  destruct (_import_samgeo_without_plugin_shadow env dir s) as [[[m|]|e] s1]; reflexivity.
Qed.

Lemma get_samgeo_eq {W} (env : Env W) (c : option ModuleType) (s : Sys W) :
  get_samgeo env (mkSt c s)
  = match c with
    | Some m => (Return m, mkSt c s)
    | None =>
        match resolve env s (Path env (module_file env)) with
        | Raise e => (Raise (Propagated e), mkSt None s)
        | Return here =>
            match get_samgeo_normal_import env (parent here) s with
            | (Return (Some m), s1) => (Return m, mkSt (Some m) s1)
            | (Return None, s1) => get_samgeo_retry env (parent here) (mkSt None s1)
            | (Raise e, s1) => (Raise (Propagated e), mkSt None s1)
            end
        end
    end.
Proof.
  destruct c as [m|]; [reflexivity|].
  unfold get_samgeo, bind at 1, gets. cbn [_CACHED].
  unfold bind at 1, lift, call. cbn [sys _CACHED].
  destruct (resolve env s (Path env (module_file env))) as [here|e]; [|reflexivity].
  unfold bind at 1. cbn [sys _CACHED].
  destruct (get_samgeo_normal_import env (parent here) s) as [[[m|]|e] s1]; reflexivity.
Qed.

(** ** The cache *)

Lemma from_dists_return_cached {W} (env : Env W) (names : list string) (st : St W) h st' :
  get_samgeo_from_dists env names st = (Return h, st') -> _CACHED st' = Some h.
Proof.
  revert st; induction names as [|n names IH]; intros [c s].
  - discriminate.
  - rewrite get_samgeo_from_dists_cons.
    destruct (_load_external_samgeo_from_dist env n s) as [[[m|]|e] s1].
    + intros [= <- <-]. reflexivity.
    + apply IH.
    + discriminate.
Qed.

Lemma retry_return_cached {W} (env : Env W) (dir : PyPath) (st : St W) h st' :
  get_samgeo_retry env dir st = (Return h, st') -> _CACHED st' = Some h.
Proof.
  destruct st as [c s]. rewrite get_samgeo_retry_eq.
  destruct (_import_samgeo_without_plugin_shadow env dir s) as [[[m|]|e] s1].
  - intros [= <- <-]. reflexivity.
  - apply from_dists_return_cached.
  - discriminate.
Qed.

Lemma get_samgeo_return_cached {W} (env : Env W) (st : St W) h st' :
  get_samgeo env st = (Return h, st') -> _CACHED st' = Some h.
Proof.
  destruct st as [c s]. rewrite get_samgeo_eq.
  destruct c as [m|].
  - intros [= <- <-]. reflexivity.
  - destruct (resolve env s (Path env (module_file env))) as [here|e]; [|discriminate].
    destruct (get_samgeo_normal_import env (parent here) s) as [[[m|]|e] s1].
    + intros [= <- <-]. reflexivity.
    + apply retry_return_cached.
    + discriminate.
Qed.

Lemma get_samgeo_hit {W} (env : Env W) (h : ModuleType) (s : Sys W) :
  get_samgeo env (mkSt (Some h) s) = (Return h, mkSt (Some h) s).
Proof. reflexivity. Qed.

(** C3.  When a call of [get_samgeo] returns the module [h], the cache
    slot holds [h]; and from then on, in whatever state the interpreter
    is and whatever the import machinery would answer, a call returns [h]
    itself and leaves the state, the slot included, as it found it, so
    that the same holds for every later call. *)
Theorem get_samgeo_cached {W} (env : Env W) (st : St W) h st' :
  get_samgeo env st = (Return h, st') ->
  _CACHED st' = Some h /\
  forall (env' : Env W) (s : Sys W),
    get_samgeo env' (mkSt (_CACHED st') s) = (Return h, mkSt (_CACHED st') s).
Proof.
  intros H. apply get_samgeo_return_cached in H. split; [exact H|].
  intros env' s. rewrite H. apply get_samgeo_hit.
Qed.

Lemma get_samgeo_cached_witness :
  let env := Reference.env_of Reference.disk_both in
  let st := mkSt None (Reference.sys0 ["/plugins"; "/site-packages"] ∅) in
  let st' := mkSt (Some Reference.external_pkg)
               (Reference.sys0 ["/plugins"; "/site-packages"]
                  {["samgeo" := Some Reference.plugin_pkg]}) in
  get_samgeo env st = (Return Reference.external_pkg, st') /\
  _CACHED st' = Some Reference.external_pkg /\
  forall (env' : Env unit) (s : Sys unit),
    get_samgeo env' (mkSt (_CACHED st') s)
    = (Return Reference.external_pkg, mkSt (_CACHED st') s).
Proof.
  intros env st st'.
  assert (H : get_samgeo env st = (Return Reference.external_pkg, st')).
  { vm_compute. reflexivity. }
  split; [exact H|].
  exact (get_samgeo_cached env st Reference.external_pkg st' H).
Defined.

(** ** The final error *)

Lemma get_samgeo_raise_eq {W} (st : St W) :
  get_samgeo_raise st = (Raise (ResolutionError (diagnostic (sys st))), st).
Proof. reflexivity. Qed.

(** To its caller the final error is an [ImportError] with that text. *)
Lemma resolution_error_class (msg : string) :
  exc_of (ResolutionError msg) = mkExc ImportError msg.
Proof. reflexivity. Qed.

Lemma from_dists_resolution_error {W} (env : Env W) (c : option ModuleType) (s : Sys W)
    msg st' :
  get_samgeo_from_dists env ["samgeo"; "samgeo-py"] (mkSt c s)
    = (Raise (ResolutionError msg), st') <->
  exists s3 s4,
    _load_external_samgeo_from_dist env "samgeo" s = (Return None, s3) /\
    _load_external_samgeo_from_dist env "samgeo-py" s3 = (Return None, s4) /\
    st' = mkSt c s4 /\ msg = diagnostic s4.
Proof.
  rewrite get_samgeo_from_dists_cons. split.
  - destruct (_load_external_samgeo_from_dist env "samgeo" s) as [[[m|]|e] s3];
      [discriminate| |discriminate].
    rewrite get_samgeo_from_dists_cons.
    destruct (_load_external_samgeo_from_dist env "samgeo-py" s3) as [[[m|]|e] s4] eqn:H4;
      [discriminate| |discriminate].
    rewrite get_samgeo_from_dists_nil, get_samgeo_raise_eq. cbn [sys].
    intros [= <- <-]. exists s3, s4. auto.
  - intros (s3 & s4 & -> & H2 & -> & ->).
    rewrite get_samgeo_from_dists_cons, H2. reflexivity.
Qed.

(** The final error is raised exactly when every strategy returns
    [None]. *)
Lemma final_error_flow {W} (env : Env W) (st : St W) msg st' :
  get_samgeo env st = (Raise (ResolutionError msg), st') <->
  all_strategies_fail env st st' /\ msg = diagnostic (sys st').
Proof.
  destruct st as [c s]. rewrite get_samgeo_eq.
  unfold all_strategies_fail. cbn [_CACHED sys]. split.
  - destruct c as [m|]; [discriminate|].
    destruct (resolve env s (Path env (module_file env))) as [here|e]; [|discriminate].
    destruct (get_samgeo_normal_import env (parent here) s) as [[[m|]|e] s1] eqn:H1;
      [discriminate| |discriminate].
    rewrite get_samgeo_retry_eq.
    destruct (_import_samgeo_without_plugin_shadow env (parent here) s1)
      as [[[m|]|e] s2] eqn:H2; [discriminate| |discriminate].
    rewrite from_dists_resolution_error.
    intros (s3 & s4 & H3 & H4 & -> & ->). cbn [sys].
    split; [|reflexivity]. split; [reflexivity|].
    exists here, s1, s2, s3, s4. auto 10.
  - intros [[-> (here & s1 & s2 & s3 & s4 & -> & -> & H2 & H3 & H4 & ->)] ->].
    rewrite get_samgeo_retry_eq, H2. apply from_dists_resolution_error.
    exists s3, s4. auto.
Qed.

(** ** The shadow check *)

Lemma is_module_from_dir_file {W} (env : Env W) (md : ModuleType) (d : PyPath) (s : Sys W)
    f pf pd :
  mod_file md = Value f -> f <> EmptyString ->
  resolve env s (Path env f) = Return pf ->
  resolve env s d = Return pd ->
  _is_module_from_dir env md d s = (Return (is_relative_to pf pd), s).
Proof.
  intros Hf Hne Hpf Hpd. unfold _is_module_from_dir. rewrite Hf. cbn [getattr].
  destruct f as [|c f]; [congruence|]. cbn [truthy negb].
  unfold try_except, bind, call, ret. rewrite Hpf, Hpd. reflexivity.
Qed.

Lemma is_module_from_dir_no_file {W} (env : Env W) (md : ModuleType) (d : PyPath) (s : Sys W) :
  getattr (mod_file md) None = None ->
  _is_module_from_dir env md d s = (Return false, s).
Proof. intros H. unfold _is_module_from_dir. rewrite H. reflexivity. Qed.

Lemma is_module_from_dir_raise {W} (env : Env W) (md : ModuleType) (d : PyPath) (s : Sys W)
    f e :
  mod_file md = Value f ->
  is_Exception (exc_class e) = true ->
  resolve env s (Path env f) = Raise e \/
  (exists p, resolve env s (Path env f) = Return p) /\ resolve env s d = Raise e ->
  _is_module_from_dir env md d s = (Return false, s).
Proof.
  intros Hf He H. unfold _is_module_from_dir. rewrite Hf. cbn [getattr].
  destruct f as [|c f]; [reflexivity|]. cbn [truthy negb].
  unfold try_except, bind, call, ret.
  destruct H as [H | [[p Hp] H]].
  - rewrite H, He. reflexivity.
  - rewrite Hp, H, He. reflexivity.
Qed.

Lemma normal_import_checked {W} (env : Env W) (d : PyPath) (s : Sys W) m s1 b s2 :
  import_module env "samgeo" s = (Return m, s1) ->
  _is_module_from_dir env m d s1 = (Return b, s2) ->
  get_samgeo_normal_import env d s = (Return (if b then None else Some m), s2).
Proof.
  intros Hi Hc. unfold get_samgeo_normal_import, try_except, bind.
  rewrite Hi, Hc. destruct b; reflexivity.
Qed.

(** C5.  The normal import returns a module whose [__file__], once
    resolved, is [pf], while the caller's package directory resolves to
    [pd].  If [pf] is a path-prefix descendant of [pd], [get_samgeo]
    keeps nothing in the cache slot and goes on with the path-suppressed
    retry; if it is not, [get_samgeo] returns the module and the cache
    slot holds it. *)
Theorem normal_import_shadow_check {W} (env : Env W) (s : Sys W)
    here imported s1 f pf pd :
  resolve env s (Path env (module_file env)) = Return here ->
  import_module env "samgeo" s = (Return imported, s1) ->
  mod_file imported = Value f -> f <> EmptyString ->
  resolve env s1 (Path env f) = Return pf ->
  resolve env s1 (parent here) = Return pd ->
  (path_descendant pf pd ->
   get_samgeo env (mkSt None s) = get_samgeo_retry env (parent here) (mkSt None s1)) /\
  (~ path_descendant pf pd ->
   get_samgeo env (mkSt None s) = (Return imported, mkSt (Some imported) s1)).
Proof.
  intros Hhere Himp Hf Hne Hpf Hpd.
  pose proof (is_module_from_dir_file env imported (parent here) s1 f pf pd Hf Hne Hpf Hpd)
    as Hcheck.
  pose proof (normal_import_checked env (parent here) s imported s1 _ s1 Himp Hcheck) as Hn.
  rewrite get_samgeo_eq, Hhere, Hn. split; intros Hd.
  - apply is_relative_to_spec in Hd. rewrite Hd. reflexivity.
  - apply is_relative_to_false in Hd. rewrite Hd. reflexivity.
Qed.

Lemma normal_import_shadow_check_witness :
  let env := Reference.env_of Reference.disk_both in
  let s := Reference.sys0 ["/plugins"; "/site-packages"] ∅ in
  let s1 := Reference.sys0 ["/plugins"; "/site-packages"]
              {["samgeo" := Some Reference.plugin_pkg]} in
  let here := Reference.posix_path "/plugins/samgeo/_samgeo_lib.py" in
  let pf := Reference.posix_path "/plugins/samgeo/__init__.py" in
  path_descendant pf Reference.plugin_dir /\
  get_samgeo env (mkSt None s) = get_samgeo_retry env (parent here) (mkSt None s1).
Proof.
  intros env s s1 here pf.
  assert (Hd : path_descendant pf Reference.plugin_dir).
  { exists ["__init__.py"]. vm_compute. reflexivity. }
  split; [exact Hd|].
  refine (proj1 (normal_import_shadow_check env s here Reference.plugin_pkg s1
                   "/plugins/samgeo/__init__.py" pf Reference.plugin_dir
                   _ _ _ _ _ _) Hd).
  - vm_compute. reflexivity.
  - vm_compute. reflexivity.
  - reflexivity.
  - discriminate.
  - vm_compute. reflexivity.
  - vm_compute. reflexivity.
Defined.

(** C9.  For a module without usable origin the shadow check answers
    [False], whatever the directory and whatever the filesystem would
    say; so when the normal import returns such a module, [get_samgeo]
    returns it and the cache slot holds it. *)
Theorem is_module_from_dir_without_origin {W} (env : Env W) (s : Sys W)
    (md : ModuleType) (d : PyPath) :
  no_origin env s md d ->
  _is_module_from_dir env md d s = (Return false, s) /\
  (forall s0 here,
     resolve env s0 (Path env (module_file env)) = Return here ->
     d = parent here ->
     import_module env "samgeo" s0 = (Return md, s) ->
     get_samgeo env (mkSt None s0) = (Return md, mkSt (Some md) s)).
Proof.
  intros H.
  assert (Hc : _is_module_from_dir env md d s = (Return false, s)).
  { destruct H as [H | [H | (f & e & Hf & He & H)]].
    - apply is_module_from_dir_no_file. now rewrite H.
    - apply is_module_from_dir_no_file. now rewrite H.
    - now apply (is_module_from_dir_raise env md d s f e). }
  split; [exact Hc|].
  intros s0 here Hhere -> Himp.
  rewrite get_samgeo_eq, Hhere.
  rewrite (normal_import_checked env (parent here) s0 md s false s Himp Hc).
  reflexivity.
Qed.

(** A namespace package, whose [__file__] is [None], found first on the
    path. *)
Lemma is_module_from_dir_without_origin_witness :
  let env := Reference.env_of
    (Reference.mkDisk "/plugins/samgeo/_samgeo_lib.py"
       [("/site-packages", Reference.namespace_pkg)] None [] [] [] 7 []) in
  let s0 := Reference.sys0 ["/plugins"; "/site-packages"] ∅ in
  let s := Reference.sys0 ["/plugins"; "/site-packages"]
             {["samgeo" := Some Reference.namespace_pkg]} in
  no_origin env s Reference.namespace_pkg Reference.plugin_dir /\
  _is_module_from_dir env Reference.namespace_pkg Reference.plugin_dir s = (Return false, s) /\
  get_samgeo env (mkSt None s0)
    = (Return Reference.namespace_pkg, mkSt (Some Reference.namespace_pkg) s).
Proof.
  intros env s0 s.
  assert (H : no_origin env s Reference.namespace_pkg Reference.plugin_dir).
  { right. left. reflexivity. }
  split; [exact H|].
  destruct (is_module_from_dir_without_origin env s Reference.namespace_pkg
              Reference.plugin_dir H) as [H1 H2].
  split; [exact H1|].
  apply (H2 s0 (Reference.posix_path "/plugins/samgeo/_samgeo_lib.py")).
  - vm_compute. reflexivity.
  - vm_compute. reflexivity.
  - vm_compute. reflexivity.
Defined.

(** ** Exceptions of the strategies *)

Lemma try_except_Exception {S A} (c : M S Exc A) (a : A) (s : S) e s' :
  try_except c is_Exception (ret a) s = (Raise e, s') ->
  is_Exception (exc_class e) = false.
Proof.
  unfold try_except. destruct (c s) as [[x|e0] s0]; [discriminate|].
  destruct (is_Exception (exc_class e0)) eqn:He; [discriminate|].
  now intros [= <- _].
Qed.



Lemma load_external_not_found {W} (env : Env W) (name : string) (s : Sys W) e :
  distribution env s name = Raise e ->
  is_PackageNotFoundError (exc_class e) = true ->
  _load_external_samgeo_from_dist env name s = (Return None, s).
Proof.
  intros Hd He. unfold _load_external_samgeo_from_dist, bind at 1, try_except.
  unfold bind, call. rewrite Hd, He. reflexivity.
Qed.


(** ** The scan of a distribution's files *)

Lemma find_init_cons (f : string) (rest : list string) :
  (is_initializer f /\ find_init (f :: rest) = Some f) \/
  (~ is_initializer f /\ find_init (f :: rest) = find_init rest).
Proof.
  simpl. destruct (endswith (str_replace "\" "/" f) "samgeo/__init__.py") eqn:E.
  - left. split; [now apply endswith_spec | reflexivity].
  - right. split; [|reflexivity].
    intros H. apply endswith_spec in H. congruence.
Qed.

Lemma find_init_none (files : list string) :
  find_init files = None <-> Forall (fun g => ~ is_initializer g) files.
Proof.
  induction files as [|f rest IH].
  - split; [constructor | reflexivity].
  - destruct (find_init_cons f rest) as [[Hi ->] | [Hn ->]].
    + split; [discriminate|]. intros H. inversion H; subst. contradiction.
    + rewrite IH. split.
      * intros H. now constructor.
      * intros H. now inversion H.
Qed.

(** C8.  The scan returns the entry [f] exactly when [f] is an entry of
    the listing that matches and no entry before it matches; it returns
    [None] exactly when no entry matches. *)
Theorem find_init_first_match (files : list string) :
  (forall f,
     find_init files = Some f <->
     exists before after,
       files = before ++ f :: after /\ is_initializer f /\
       Forall (fun g => ~ is_initializer g) before) /\
  (find_init files = None <-> Forall (fun g => ~ is_initializer g) files).
Proof.
  split; [|apply find_init_none].
  induction files as [|x rest IH]; intros f.
  - split; [discriminate|]. intros (before & after & H & _). now destruct before.
  - destruct (find_init_cons x rest) as [[Hi ->] | [Hn ->]].
    + split.
      * intros [= ->]. exists [], rest. repeat split; [exact Hi | constructor].
      * intros (before & after & H & Hf & Hb). destruct before as [|y before].
        -- now injection H as ->.
        -- injection H as -> _. inversion Hb; subst. contradiction.
    + rewrite IH. split.
      * intros (before & after & -> & Hf & Hb). exists (x :: before), after.
        repeat split; [exact Hf | now constructor].
      * intros (before & after & H & Hf & Hb). destruct before as [|y before].
        -- injection H as -> _. contradiction.
        -- injection H as -> ->. inversion Hb; subst. exists before, after. auto.
Qed.

Lemma find_init_first_match_witness :
  let files := ["samgeo-1.0.dist-info/RECORD"; "lib\samgeo\__init__.py"; "samgeo/__init__.py"] in
  find_init files = Some "lib\samgeo\__init__.py" /\
  exists before after,
    files = before ++ "lib\samgeo\__init__.py" :: after /\
    is_initializer "lib\samgeo\__init__.py" /\
    Forall (fun g => ~ is_initializer g) before.
Proof.
  intros files.
  assert (H : find_init files = Some "lib\samgeo\__init__.py").
  { vm_compute. reflexivity. }
  split; [exact H|].
  exact (proj1 (proj1 (find_init_first_match files) "lib\samgeo\__init__.py") H).
Defined.

(** ** The load from a distribution *)

Lemma load_external_found {W} (env : Env W) (name : string) (s : Sys W)
    dist init_rel init_path :
  finds_initializer env name s dist init_rel init_path ->
  _load_external_samgeo_from_dist env name s
  = match dict_get (sys_modules s) alias_name with
    | Some m => (Return (Some m), s)
    | None =>
        match spec_from_file_location env s alias_name init_path [parent init_path] with
        | Raise e => (Raise e, s)
        | Return None => (Return None, s)
        | Return (Some sp) =>
            match spec_loader sp with
            | None => (Return None, s)
            | Some loader =>
                match module_from_spec env s sp with
                | Raise e => (Raise e, s)
                | Return m =>
                    match exec_module env loader m (modules_setitem alias_name m s) with
                    | (Return _, s') => (Return (Some m), s')
                    | (Raise e, s') => (Raise e, s')
                    end
                end
            end
        end
    end.
Proof.
  intros (Hd & (listed & Hl & Hf) & Hr).
  unfold _load_external_samgeo_from_dist, bind at 1, try_except.
  unfold bind at 1, call at 1. rewrite Hd. cbn [ret].
  unfold bind at 1, call at 1. rewrite Hl, Hf.
  unfold bind at 1, call at 1. rewrite Hr.
  unfold bind at 1, gets.
  destruct (dict_get (sys_modules s) alias_name) as [m|]; [reflexivity|].
  unfold bind at 1, call at 1.
  destruct (spec_from_file_location env s alias_name init_path [parent init_path])
    as [[sp|]|e]; [|reflexivity|reflexivity].
  destruct (spec_loader sp) as [loader|]; [|reflexivity].
  unfold bind at 1, call at 1.
  destruct (module_from_spec env s sp) as [m|e]; [|reflexivity].
  unfold bind at 1, modify. unfold bind, ret.
  destruct (exec_module env loader m (modules_setitem alias_name m s)) as [[u|e] s'];
    reflexivity.
Qed.

(** C6.  When the load creates a module, the one write it makes to
    [sys.modules] binds the alias [samgeo_external] to the module: every
    other key, [samgeo] among them, is bound as before when the module's
    code starts to run, and what the call returns is the module with the
    state the execution leaves.  When [sys.modules] already binds the
    alias to a module, the call returns that module and changes nothing,
    whatever spec creation, module creation and execution would do. *)
Theorem load_external_alias {W} (env : Env W) (name : string) (s : Sys W)
    dist init_rel init_path :
  finds_initializer env name s dist init_rel init_path ->
  (forall sp loader m,
     dict_get (sys_modules s) alias_name = None ->
     spec_from_file_location env s alias_name init_path [parent init_path]
       = Return (Some sp) ->
     spec_loader sp = Some loader ->
     module_from_spec env s sp = Return m ->
     let registered := modules_setitem alias_name m s in
     sys_modules registered !! "samgeo_external" = Some (Some m) /\
     (forall k, k <> "samgeo_external" -> sys_modules registered !! k = sys_modules s !! k) /\
     sys_modules registered !! "samgeo" = sys_modules s !! "samgeo" /\
     forall s', exec_module env loader m registered = (Return tt, s') ->
                _load_external_samgeo_from_dist env name s = (Return (Some m), s')) /\
  (forall existing,
     dict_get (sys_modules s) alias_name = Some existing ->
     _load_external_samgeo_from_dist env name s = (Return (Some existing), s)).
Proof.
  intros Hfound. pose proof (load_external_found env name s _ _ _ Hfound) as Heq. split.
  - intros sp loader m Hnone Hspec Hloader Hmod registered.
    split; [apply lookup_insert_eq|].
    split; [intros k Hk; now apply lookup_insert_ne|].
    split; [now apply lookup_insert_ne|].
    intros s' Hexec. rewrite Heq, Hnone, Hspec, Hloader, Hmod.
    fold registered. rewrite Hexec. reflexivity.
  - intros existing Hex. rewrite Heq, Hex. reflexivity.
Qed.

Lemma load_external_alias_witness :
  let env := Reference.env_of Reference.disk_dist in
  let s := Reference.sys0 ["/plugins"; "/site-packages"] ∅ in
  let init_path := Reference.posix_path "/site-packages/samgeo/__init__.py" in
  let m := mkModule 7 (Value "/site-packages/samgeo/__init__.py") in
  let registered := modules_setitem alias_name m s in
  finds_initializer env "samgeo" s Reference.site_dist "samgeo/__init__.py" init_path /\
  sys_modules registered !! "samgeo_external" = Some (Some m) /\
  sys_modules registered !! "samgeo" = sys_modules s !! "samgeo" /\
  _load_external_samgeo_from_dist env "samgeo" s = (Return (Some m), registered) /\
  _load_external_samgeo_from_dist env "samgeo" registered = (Return (Some m), registered).
Proof.
  intros env s init_path m registered.
  assert (H : finds_initializer env "samgeo" s Reference.site_dist "samgeo/__init__.py"
                init_path).
  { split; [vm_compute; reflexivity|]. split; [|vm_compute; reflexivity].
    eexists. split; vm_compute; reflexivity. }
  assert (H' : finds_initializer env "samgeo" registered Reference.site_dist
                 "samgeo/__init__.py" init_path).
  { split; [vm_compute; reflexivity|]. split; [|vm_compute; reflexivity].
    eexists. split; vm_compute; reflexivity. }
  split; [exact H|].
  destruct (proj1 (load_external_alias env "samgeo" s _ _ _ H)
              (mkSpec alias_name init_path (Some 0)) 0 m)
    as (H1 & _ & H3 & H4); try (vm_compute; reflexivity).
  split; [exact H1|]. split; [exact H3|]. split.
  - apply H4. vm_compute. reflexivity.
  - apply (proj2 (load_external_alias env "samgeo" registered _ _ _ H') m).
    vm_compute. reflexivity.
Defined.

(** C10.  The load binds the alias to the new module before it runs the
    module's code.  If that code raises, the call raises the same
    exception in the state the code left: the call undoes nothing.  So,
    as long as the alias is still bound to the module in that state, a
    later load that reaches the test of the alias returns the module and
    changes nothing; its code is not run again. *)
Theorem load_external_not_atomic {W} (env : Env W) (name : string) (s : Sys W)
    dist init_rel init_path sp loader m e s2 :
  finds_initializer env name s dist init_rel init_path ->
  dict_get (sys_modules s) alias_name = None ->
  spec_from_file_location env s alias_name init_path [parent init_path] = Return (Some sp) ->
  spec_loader sp = Some loader ->
  module_from_spec env s sp = Return m ->
  exec_module env loader m (modules_setitem alias_name m s) = (Raise e, s2) ->
  dict_get (sys_modules (modules_setitem alias_name m s)) "samgeo_external" = Some m /\
  _load_external_samgeo_from_dist env name s = (Raise e, s2) /\
  (dict_get (sys_modules s2) "samgeo_external" = Some m ->
   forall (env' : Env W) name' dist' init_rel' init_path',
     finds_initializer env' name' s2 dist' init_rel' init_path' ->
     _load_external_samgeo_from_dist env' name' s2 = (Return (Some m), s2)).
Proof.
  intros Hfound Hnone Hspec Hloader Hmod Hexec. split; [|split].
  - unfold dict_get, modules_setitem, alias_name. cbn [sys_modules set_sys_modules].
    now rewrite lookup_insert_eq.
  - rewrite (load_external_found env name s _ _ _ Hfound).
    rewrite Hnone, Hspec, Hloader, Hmod, Hexec. reflexivity.
  - intros Hkept env' name' dist' init_rel' init_path' Hfound'.
    rewrite (load_external_found env' name' s2 _ _ _ Hfound').
    unfold alias_name. rewrite Hkept. reflexivity.
Qed.

Lemma load_external_not_atomic_witness :
  let env := Reference.env_of Reference.disk_dist_failing in
  let s := Reference.sys0 ["/plugins"; "/site-packages"] ∅ in
  let init_path := Reference.posix_path "/site-packages/samgeo/__init__.py" in
  let m := mkModule 7 (Value "/site-packages/samgeo/__init__.py") in
  let e := mkExc RuntimeError "missing dependency" in
  let s2 := modules_setitem alias_name m s in
  finds_initializer env "samgeo" s Reference.site_dist "samgeo/__init__.py" init_path /\
  exec_module env 0 m (modules_setitem alias_name m s) = (Raise e, s2) /\
  _load_external_samgeo_from_dist env "samgeo" s = (Raise e, s2) /\
  _load_external_samgeo_from_dist env "samgeo" s2 = (Return (Some m), s2).
Proof.
  intros env s init_path m e s2.
  assert (H : finds_initializer env "samgeo" s Reference.site_dist "samgeo/__init__.py"
                init_path).
  { split; [vm_compute; reflexivity|]. split; [|vm_compute; reflexivity].
    eexists. split; vm_compute; reflexivity. }
  assert (H' : finds_initializer env "samgeo" s2 Reference.site_dist "samgeo/__init__.py"
                 init_path).
  { split; [vm_compute; reflexivity|]. split; [|vm_compute; reflexivity].
    eexists. split; vm_compute; reflexivity. }
  assert (He : exec_module env 0 m (modules_setitem alias_name m s) = (Raise e, s2)).
  { vm_compute. reflexivity. }
  split; [exact H|]. split; [exact He|].
  destruct (load_external_not_atomic env "samgeo" s Reference.site_dist
              "samgeo/__init__.py" init_path (mkSpec alias_name init_path (Some 0)) 0 m e s2)
    as (_ & H2 & H3); try (vm_compute; reflexivity); try assumption.
  split; [exact H2|].
  apply (H3 ltac:(vm_compute; reflexivity) env "samgeo" _ _ _ H').
Defined.

(** ** The two candidate distributions *)

Lemma load_external_same_lookup {W} (env : Env W) (name : string)
    (other : Sys W -> string -> Outcome Exc Dist) (s : Sys W) :
  _load_external_samgeo_from_dist
    (with_distribution env
       (fun s0 n => if String.eqb n name then distribution env s0 n else other s0 n))
    name s
  = _load_external_samgeo_from_dist env name s.
Proof.
  unfold _load_external_samgeo_from_dist, with_distribution.
  cbn [distribution resolve spec_from_file_location module_from_spec exec_module].
  rewrite String.eqb_refl. reflexivity.
Qed.

(** C7, as amended.  After the retry the candidates are [samgeo], then
    [samgeo-py], and no other.  If the load from [samgeo] returns a
    module, that module is the result, whatever the metadata lookup
    would answer for any other name: [samgeo-py] is not consulted.  If
    the load from [samgeo] returns [None], the load from [samgeo-py]
    decides, and the final error follows when it returns [None] too.  A
    candidate whose metadata lists a matching initializer but for which
    no import spec, or a spec without loader, is obtained returns
    [None] like a candidate without match. *)
Theorem from_dists_order {W} (env : Env W) (c : option ModuleType) (s : Sys W) :
  (forall m s1,
     _load_external_samgeo_from_dist env "samgeo" s = (Return (Some m), s1) ->
     get_samgeo_from_dists env ["samgeo"; "samgeo-py"] (mkSt c s)
       = (Return m, mkSt (Some m) s1) /\
     forall other : Sys W -> string -> Outcome Exc Dist,
       get_samgeo_from_dists
         (with_distribution env
            (fun s0 n => if String.eqb n "samgeo" then distribution env s0 n else other s0 n))
         ["samgeo"; "samgeo-py"] (mkSt c s)
       = (Return m, mkSt (Some m) s1)) /\
  (forall s1,
     _load_external_samgeo_from_dist env "samgeo" s = (Return None, s1) ->
     get_samgeo_from_dists env ["samgeo"; "samgeo-py"] (mkSt c s)
     = match _load_external_samgeo_from_dist env "samgeo-py" s1 with
       | (Return (Some m), s2) => (Return m, mkSt (Some m) s2)
       | (Return None, s2) => get_samgeo_raise (mkSt c s2)
       | (Raise e, s2) => (Raise (Propagated e), mkSt c s2)
       end) /\
  (forall dir s0,
     _import_samgeo_without_plugin_shadow env dir s0 = (Return None, s) ->
     get_samgeo_retry env dir (mkSt c s0)
     = get_samgeo_from_dists env ["samgeo"; "samgeo-py"] (mkSt c s)) /\
  (forall name dist init_rel init_path,
     finds_initializer env name s dist init_rel init_path ->
     dict_get (sys_modules s) alias_name = None ->
     spec_from_file_location env s alias_name init_path [parent init_path] = Return None \/
     (exists sp,
        spec_from_file_location env s alias_name init_path [parent init_path]
          = Return (Some sp) /\ spec_loader sp = None) ->
     _load_external_samgeo_from_dist env name s = (Return None, s)).
Proof.
  split; [|split; [|split]].
  - intros m s1 H. split.
    + rewrite get_samgeo_from_dists_cons, H. reflexivity.
    + intros other. rewrite get_samgeo_from_dists_cons, load_external_same_lookup, H.
      reflexivity.
  - intros s1 H. rewrite get_samgeo_from_dists_cons, H, get_samgeo_from_dists_cons.
    destruct (_load_external_samgeo_from_dist env "samgeo-py" s1) as [[[m|]|e] s2];
      reflexivity.
  - intros dir s0 H. rewrite get_samgeo_retry_eq, H. reflexivity.
  - intros name dist init_rel init_path Hfound Hnone Hspec.
    rewrite (load_external_found env name s _ _ _ Hfound), Hnone.
    destruct Hspec as [-> | (sp & -> & ->)]; reflexivity.
Qed.

Lemma from_dists_order_witness :
  let env := Reference.env_of Reference.disk_two_dists in
  let s := Reference.sys0 ["/plugins"; "/site-packages"] ∅ in
  let m := mkModule 7 (Value "/alt/samgeo/__init__.py") in
  _load_external_samgeo_from_dist env "samgeo" s = (Return None, s) /\
  get_samgeo_from_dists env ["samgeo"; "samgeo-py"] (mkSt None s)
    = (Return m, mkSt (Some m) (modules_setitem alias_name m s)).
Proof.
  intros env s m.
  assert (H : _load_external_samgeo_from_dist env "samgeo" s = (Return None, s)).
  { vm_compute. reflexivity. }
  split; [exact H|].
  rewrite (proj1 (proj2 (from_dists_order env None s)) s H).
  vm_compute. reflexivity.
Defined.

(** C7 fails as stated: the metadata of [samgeo] lists the initializer,
    no loader accepts the file it resolves to, and the load returns
    [None]; [samgeo-py] is consulted and its module is the result. *)
Lemma first_match_loses_without_loader :
  ~ first_match_wins (Reference.env_of Reference.disk_two_dists)
      (Reference.sys0 ["/plugins"; "/site-packages"] ∅).
Proof.
  unfold first_match_wins. intros H.
  destruct (H Reference.site_dist "samgeo/__init__.py"
              (Reference.posix_path "/site-packages/samgeo/__init__.py"))
    as (m & s1 & Hl & _).
  - split; [vm_compute; reflexivity|]. split; [|vm_compute; reflexivity].
    eexists. split; vm_compute; reflexivity.
  - vm_compute in Hl. discriminate Hl.
Qed.

(** ** The scenario of the specification

    The plugin package is [/plugins/samgeo] and the library is installed
    in [/site-packages]; [get_samgeo] returns the module whose origin is
    [/site-packages/samgeo/__init__.py], by the retry when the library is
    importable from [sys.path] and by the load from the distribution
    when only the metadata knows it. *)

Example scenario_by_retry :
  fst (get_samgeo (Reference.env_of Reference.disk_both)
         (mkSt None (Reference.sys0 ["/plugins"; "/site-packages"] ∅)))
  = Return Reference.external_pkg.
Proof. vm_compute. reflexivity. Qed.

Example scenario_by_metadata :
  fst (get_samgeo (Reference.env_of Reference.disk_dist)
         (mkSt None (Reference.sys0 ["/plugins"; "/site-packages"] ∅)))
  = Return (mkModule 7 (Value "/site-packages/samgeo/__init__.py")).
Proof. vm_compute. reflexivity. Qed.

(** ** More on the shadow check *)

Lemma is_module_from_dir_state {W} (env : Env W) (md : ModuleType) (d : PyPath)
    (s : Sys W) r s' :
  _is_module_from_dir env md d s = (r, s') -> s' = s.
Proof.
  unfold _is_module_from_dir, try_except, bind, call, ret.
  intros H. repeat case_match; simplify_eq; reflexivity.
Qed.

(** The shadow check reads and never writes: the interpreter state is
    the same after it, and an exception that leaves it is of a class
    outside [Exception]. *)
Theorem is_module_from_dir_frame {W} (env : Env W) (md : ModuleType) (d : PyPath)
    (s : Sys W) r s' :
  _is_module_from_dir env md d s = (r, s') ->
  s' = s /\ forall e, r = Raise e -> is_Exception (exc_class e) = false.
Proof.
  intros H. split; [exact (is_module_from_dir_state _ _ _ _ _ _ H)|].
  intros e ->. exact (try_except_Exception _ _ _ _ _ H).
Qed.

Lemma is_module_from_dir_frame_witness :
  let env := Reference.env_of Reference.disk_both in
  let s := Reference.sys0 ["/plugins"; "/site-packages"] ∅ in
  _is_module_from_dir env Reference.plugin_pkg Reference.plugin_dir s = (Return true, s) /\
  s = s /\
  forall e, Return true = Raise e -> is_Exception (exc_class e) = false.
Proof.
  intros env s.
  assert (H : _is_module_from_dir env Reference.plugin_pkg Reference.plugin_dir s
              = (Return true, s)).
  { vm_compute. reflexivity. }
  split; [exact H|].
  exact (is_module_from_dir_frame env Reference.plugin_pkg Reference.plugin_dir s _ s H).
Defined.

(** The shadow check answers [True] exactly when [__file__] is a
    non-empty string, both it and the directory resolve, and the resolved
    file is a path-prefix descendant of the resolved directory. *)
Theorem is_module_from_dir_true {W} (env : Env W) (md : ModuleType) (d : PyPath)
    (s s' : Sys W) :
  _is_module_from_dir env md d s = (Return true, s') <->
  s' = s /\
  exists f pf pd,
    mod_file md = Value f /\ f <> EmptyString /\
    resolve env s (Path env f) = Return pf /\
    resolve env s d = Return pd /\
    path_descendant pf pd.
Proof.
  split.
  - intros H. split; [exact (is_module_from_dir_state _ _ _ _ _ _ H)|].
    revert H. unfold _is_module_from_dir, try_except, bind, call, ret.
    destruct (mod_file md) as [| |f] eqn:Hf; cbn [getattr]; try discriminate.
    destruct f as [|c f]; cbn [truthy negb]; [discriminate|].
    destruct (resolve env s (Path env (String c f))) as [pf|e] eqn:Hpf.
    + destruct (resolve env s d) as [pd|e] eqn:Hpd.
      * intros [= Hrel _]. exists (String c f), pf, pd.
        repeat split; try assumption; [discriminate | now apply is_relative_to_spec].
      * destruct (is_Exception (exc_class e)); discriminate.
    + destruct (is_Exception (exc_class e)); discriminate.
  - intros [-> (f & pf & pd & Hf & Hne & Hpf & Hpd & Hd)].
    rewrite (is_module_from_dir_file env md d s f pf pd Hf Hne Hpf Hpd).
    apply is_relative_to_spec in Hd. now rewrite Hd.
Qed.

Lemma is_module_from_dir_true_witness :
  let env := Reference.env_of Reference.disk_both in
  let s := Reference.sys0 ["/plugins"; "/site-packages"] ∅ in
  _is_module_from_dir env Reference.plugin_pkg Reference.plugin_dir s = (Return true, s) /\
  exists f pf pd,
    mod_file Reference.plugin_pkg = Value f /\ f <> EmptyString /\
    resolve env s (Path env f) = Return pf /\
    resolve env s Reference.plugin_dir = Return pd /\
    path_descendant pf pd.
Proof.
  intros env s.
  assert (H : _is_module_from_dir env Reference.plugin_pkg Reference.plugin_dir s
              = (Return true, s)).
  { vm_compute. reflexivity. }
  split; [exact H|].
  exact (proj2 (proj1 (is_module_from_dir_true env Reference.plugin_pkg
                         Reference.plugin_dir s s) H)).
Defined.

(** ** More on the path-suppressed retry *)

Lemma without_plugin_parent_state {W} (env : Env W) (pp : PyPath) (l : list string)
    (s : Sys W) r s' :
  without_plugin_parent env pp l s = (r, s') -> s' = s.
Proof.
  revert r s'; induction l as [|p rest IH]; intros r s'; simpl.
  - unfold ret. now intros [= _ <-].
  - unfold bind at 1, call at 1.
    destruct (resolve env s (Path env p)) as [a|e]; [|now intros [= _ <-]].
    unfold bind at 1, call at 1.
    destruct (resolve env s pp) as [b|e]; [|now intros [= _ <-]].
    unfold bind at 1.
    destruct (without_plugin_parent env pp rest s) as [[kept|e] s0] eqn:Hrest.
    + unfold ret. intros [= _ <-]. exact (IH _ _ eq_refl).
    + intros [= _ <-]. exact (IH _ _ eq_refl).
Qed.

Lemma without_plugin_parent_cons {W} (env : Env W) (pp : PyPath) (p : string)
    (rest : list string) (s : Sys W) kept :
  fst (without_plugin_parent env pp (p :: rest) s) = Return kept ->
  exists a b kept0,
    resolve env s (Path env p) = Return a /\
    resolve env s pp = Return b /\
    fst (without_plugin_parent env pp rest s) = Return kept0 /\
    kept = if bool_decide (a <> b) then p :: kept0 else kept0.
Proof.
  simpl. unfold bind at 1, call at 1.
  destruct (resolve env s (Path env p)) as [a|e]; [|discriminate].
  unfold bind at 1, call at 1.
  destruct (resolve env s pp) as [b|e]; [|discriminate].
  unfold bind at 1.
  destruct (without_plugin_parent env pp rest s) as [[kept0|e] s0] eqn:Hrest;
    [|discriminate].
  unfold ret. cbn [fst]. intros [= <-]. exists a, b, kept0. auto.
Qed.

(** The comprehension over [sys.path] keeps, in their order, exactly the
    entries whose resolved path differs from the resolved parent of the
    plugin directory, and changes nothing in the interpreter.  It yields
    a list only if every entry resolves. *)
Theorem without_plugin_parent_filter {W} (env : Env W) (pp : PyPath) (l : list string)
    (s : Sys W) kept :
  fst (without_plugin_parent env pp l s) = Return kept ->
  snd (without_plugin_parent env pp l s) = s /\
  kept `sublist_of` l /\
  (forall p, p ∈ l -> exists a, resolve env s (Path env p) = Return a) /\
  (forall p,
     p ∈ kept <->
     p ∈ l /\
     exists a b,
       resolve env s (Path env p) = Return a /\ resolve env s pp = Return b /\ a <> b).
Proof.
  intros H. split.
  { destruct (without_plugin_parent env pp l s) as [r s'] eqn:E.
    exact (without_plugin_parent_state _ _ _ _ _ _ E). }
  revert kept H; induction l as [|x rest IH]; intros kept H.
  - injection H as <-. split; [constructor|]. split.
    + intros p Hp. now apply elem_of_nil in Hp.
    + intros p. split; [intros Hp; now apply elem_of_nil in Hp|].
      intros [Hp _]. now apply elem_of_nil in Hp.
  - apply without_plugin_parent_cons in H as (a & b & kept0 & Ha & Hb & H0 & ->).
    destruct (IH _ H0) as (Hsub & Hres & Hiff). split; [|split].
    + case_bool_decide; [now apply sublist_skip | now apply sublist_cons].
    + intros p [-> | Hp]%elem_of_cons; [now exists a | now apply Hres].
    + intros p. case_bool_decide as Hne.
      * rewrite !elem_of_cons, Hiff. split.
        -- intros [-> | [Hp Hx]].
           ++ split; [now left|]. exists a, b. auto.
           ++ split; [now right | exact Hx].
        -- intros [[-> | Hp] Hx]; [now left | right; auto].
      * rewrite elem_of_cons, Hiff. split.
        -- intros [Hp Hx]. split; [now right | exact Hx].
        -- intros [[-> | Hp] Hx]; [|split; assumption].
           destruct Hx as (a' & b' & Ha' & Hb' & Hab).
           rewrite Ha in Ha'. rewrite Hb in Hb'.
           injection Ha' as <-. injection Hb' as <-. contradiction.
Qed.

Lemma without_plugin_parent_filter_witness :
  let env := Reference.env_of Reference.disk_both in
  let s := Reference.sys0 ["/plugins"; "/site-packages"; "/plugins/"] ∅ in
  let pp := parent Reference.plugin_dir in
  let l := ["/plugins"; "/site-packages"; "/plugins/"] in
  fst (without_plugin_parent env pp l s) = Return ["/site-packages"] /\
  snd (without_plugin_parent env pp l s) = s /\
  ["/site-packages"] `sublist_of` l.
Proof.
  intros env s pp l.
  assert (H : fst (without_plugin_parent env pp l s) = Return ["/site-packages"]).
  { vm_compute. reflexivity. }
  split; [exact H|].
  destruct (without_plugin_parent_filter env pp l s _ H) as (H1 & H2 & _).
  split; [exact H1 | exact H2].
Defined.

Lemma retry_import_state_spec {W} (kept : list string) (s : Sys W) :
  sys_path (retry_import_state kept s) = kept /\
  sys_modules (retry_import_state kept s) !! "samgeo" = None /\
  (forall k, k <> "samgeo" ->
             sys_modules (retry_import_state kept s) !! k = sys_modules s !! k).
Proof.
  unfold retry_import_state, dict_contains. cbn [set_sys_path sys_modules].
  destruct (sys_modules s !! "samgeo") as [v|] eqn:Hv; cbn.
  - split; [reflexivity|]. split; [apply lookup_delete_eq|].
    intros k Hk. now apply lookup_delete_ne.
  - split; [reflexivity|]. split; [exact Hv|]. reflexivity.
Qed.

Lemma import_without_shadow_body_eq {W} (env : Env W) (dir pp : PyPath) (s : Sys W) kept :
  fst (without_plugin_parent env pp (sys_path s) s) = Return kept ->
  import_without_shadow_body env dir pp s
  = match import_module env "samgeo" (retry_import_state kept s) with
    | (Return m, s1) =>
        match _is_module_from_dir env m dir s1 with
        | (Return b, s2) => (Return (if b then None else Some m), s2)
        | (Raise e, s2) =>
            (if is_Exception (exc_class e) then Return None else Raise e, s2)
        end
    | (Raise e, s1) => (if is_Exception (exc_class e) then Return None else Raise e, s1)
    end.
Proof.
  intros H. unfold import_without_shadow_body, try_except.
  unfold bind at 1, gets. unfold bind at 1.
  destruct (without_plugin_parent env pp (sys_path s) s) as [r s0] eqn:E.
  cbn [fst] in H. subst r.
  apply without_plugin_parent_state in E as ->.
  unfold bind at 1, modify at 1. unfold bind at 1, modify at 1.
  fold (retry_import_state kept s). unfold bind at 1.
  destruct (import_module env "samgeo" (retry_import_state kept s)) as [[m|e] s1].
  - unfold bind. destruct (_is_module_from_dir env m dir s1) as [[b|e] s2].
    + destruct b; reflexivity.
    + unfold ret. destruct (is_Exception (exc_class e)); reflexivity.
  - unfold ret. destruct (is_Exception (exc_class e)); reflexivity.
Qed.

(** When every entry of [sys.path] resolves, the retry calls the import
    in a state whose [sys.path] is the filtered list and whose
    [sys.modules] has no key [samgeo], every other key being as before.
    A module the import returns is the result if the shadow check answers
    [False] and is discarded if it answers [True]; an [Exception] of the
    import gives [None]; in every case the [finally] block is applied to
    the state the import and the check left. *)
Theorem import_without_shadow_runs_import {W} (env : Env W) (dir : PyPath) (s : Sys W) kept :
  fst (without_plugin_parent env (parent dir) (sys_path s) s) = Return kept ->
  let at_import := retry_import_state kept s in
  let restore := restore_import_state (sys_path s) (dict_get (sys_modules s) "samgeo") in
  sys_path at_import = kept /\
  sys_modules at_import !! "samgeo" = None /\
  (forall k, k <> "samgeo" -> sys_modules at_import !! k = sys_modules s !! k) /\
  _import_samgeo_without_plugin_shadow env dir s
  = match import_module env "samgeo" at_import with
    | (Return m, s1) =>
        match _is_module_from_dir env m dir s1 with
        | (Return true, _) => (Return None, restore s1)
        | (Return false, _) => (Return (Some m), restore s1)
        | (Raise e, _) => (Raise e, restore s1)
        end
    | (Raise e, s1) =>
        (if is_Exception (exc_class e) then Return None else Raise e, restore s1)
    end.
Proof.
  intros H at_import restore.
  destruct (retry_import_state_spec kept s) as (H1 & H2 & H3).
  split; [exact H1|]. split; [exact H2|]. split; [exact H3|].
  unfold _import_samgeo_without_plugin_shadow, try_finally.
  rewrite (import_without_shadow_body_eq env dir (parent dir) s kept H).
  fold at_import. fold restore.
  destruct (import_module env "samgeo" at_import) as [[m|e] s1]; [|reflexivity].
  destruct (_is_module_from_dir env m dir s1) as [[b|e] s2] eqn:Hc.
  - apply is_module_from_dir_state in Hc as ->. destruct b; reflexivity.
  - pose proof (try_except_Exception _ _ _ _ _ Hc) as He.
    apply is_module_from_dir_state in Hc as ->. rewrite He. reflexivity.
Qed.

Lemma import_without_shadow_runs_import_witness :
  let env := Reference.env_of Reference.disk_both in
  let s := Reference.sys0 ["/plugins"; "/site-packages"]
             {["samgeo" := Some Reference.plugin_pkg]} in
  let at_import := retry_import_state ["/site-packages"] s in
  fst (without_plugin_parent env (parent Reference.plugin_dir) (sys_path s) s)
    = Return ["/site-packages"] /\
  sys_path at_import = ["/site-packages"] /\
  sys_modules at_import !! "samgeo" = None.
Proof.
  intros env s at_import.
  assert (H : fst (without_plugin_parent env (parent Reference.plugin_dir) (sys_path s) s)
              = Return ["/site-packages"]).
  { vm_compute. reflexivity. }
  split; [exact H|].
  destruct (import_without_shadow_runs_import env Reference.plugin_dir s _ H)
    as (H1 & H2 & _).
  split; [exact H1 | exact H2].
Defined.

Lemma restore_import_state_same {W} (s : Sys W) :
  restore_import_state (sys_path s) (dict_get (sys_modules s) "samgeo") s = s.
Proof.
  destruct s as [path mods exe ver w]. unfold restore_import_state, dict_get.
  cbn [sys_path sys_modules set_sys_path].
  destruct (mods !! "samgeo") as [[m|]|] eqn:Hm; try reflexivity.
  unfold modules_setitem, set_sys_modules. cbn [sys_path sys_modules sys_executable
    sys_version_info world]. f_equal. now apply insert_id.
Qed.

Lemma without_plugin_parent_raise {W} (env : Env W) (pp : PyPath) (l : list string)
    (s : Sys W) e :
  fst (without_plugin_parent env pp l s) = Raise e ->
  (exists p, p ∈ l /\ resolve env s (Path env p) = Raise e) \/ resolve env s pp = Raise e.
Proof.
  induction l as [|p rest IH]; simpl; [discriminate|].
  unfold bind at 1, call at 1.
  destruct (resolve env s (Path env p)) as [a|e0] eqn:Ha.
  2:{ cbn [fst]. intros [= ->]. left. exists p. split; [apply list_elem_of_here | exact Ha]. }
  unfold bind at 1, call at 1.
  destruct (resolve env s pp) as [b|e0] eqn:Hb.
  2:{ cbn [fst]. intros [= ->]. now right. }
  unfold bind at 1.
  destruct (without_plugin_parent env pp rest s) as [[kept|e0] s0] eqn:Hrest.
  - discriminate.
  - cbn [fst] in *. intros [= ->]. destruct (IH eq_refl) as [(q & Hq & Hr) | Hr].
    + left. exists q. split; [now apply list_elem_of_further | exact Hr].
    + now right.
Qed.

(** When an entry of [sys.path], or the parent of the plugin directory,
    cannot be resolved, the comprehension raises that exception; if it is
    of class [Exception] the retry returns [None], otherwise the retry
    raises it.  Either way no import is made and the interpreter state is
    the one before the call. *)
Theorem import_without_shadow_unresolved {W} (env : Env W) (dir : PyPath) (s : Sys W) e :
  fst (without_plugin_parent env (parent dir) (sys_path s) s) = Raise e ->
  ((exists p, p ∈ sys_path s /\ resolve env s (Path env p) = Raise e) \/
   resolve env s (parent dir) = Raise e) /\
  _import_samgeo_without_plugin_shadow env dir s
  = (if is_Exception (exc_class e) then Return None else Raise e, s).
Proof.
  intros H. split; [exact (without_plugin_parent_raise _ _ _ _ _ H)|].
  unfold _import_samgeo_without_plugin_shadow, try_finally, import_without_shadow_body,
    try_except.
  unfold bind at 1, gets. unfold bind at 1.
  destruct (without_plugin_parent env (parent dir) (sys_path s) s) as [r s0] eqn:E.
  cbn [fst] in H. subst r. apply without_plugin_parent_state in E as ->.
  destruct (is_Exception (exc_class e)); unfold ret;
    now rewrite restore_import_state_same.
Qed.

(** A path entry that cannot be resolved: the retry gives up before the
    import, although the library is importable. *)
Lemma import_without_shadow_unresolved_witness :
  let env := Reference.env_of
    (Reference.mkDisk "/plugins/samgeo/_samgeo_lib.py"
       [("/plugins", Reference.plugin_pkg); ("/site-packages", Reference.external_pkg)]
       None [Reference.posix_path "/gone"] [] [] 7 []) in
  let s := Reference.sys0 ["/plugins"; "/gone"; "/site-packages"]
             {["samgeo" := Some Reference.plugin_pkg]} in
  let e := mkExc OSError "/gone" in
  fst (without_plugin_parent env (parent Reference.plugin_dir) (sys_path s) s) = Raise e /\
  _import_samgeo_without_plugin_shadow env Reference.plugin_dir s = (Return None, s).
Proof.
  intros env s e.
  assert (H : fst (without_plugin_parent env (parent Reference.plugin_dir) (sys_path s) s)
              = Raise e).
  { vm_compute. reflexivity. }
  split; [exact H|].
  exact (proj2 (import_without_shadow_unresolved env Reference.plugin_dir s e H)).
Defined.

(** ** More on the load from a distribution *)

Lemma load_external_state {W} (env : Env W) (name : string) (s : Sys W) r s' :
  _load_external_samgeo_from_dist env name s = (r, s') ->
  s' = s \/
  exists loader m,
    dict_get (sys_modules s) alias_name = None /\
    s' = snd (exec_module env loader m (modules_setitem alias_name m s)) /\
    (forall h, r = Return (Some h) -> h = m).
Proof.
  unfold _load_external_samgeo_from_dist, try_except, bind, call, ret, gets, modify.
  intros H. repeat case_match; simplify_eq; try (left; reflexivity).
  - right. eexists _, _. split; [eassumption|]. split.
    + match goal with E : exec_module _ _ _ _ = _ |- _ => now rewrite E end.
    + now intros h [= ->].
  - right. eexists _, _. split; [eassumption|]. split.
    + match goal with E : exec_module _ _ _ _ = _ |- _ => now rewrite E end.
    + intros h. discriminate.
Qed.

(** The load changes the interpreter only by running a module's code:
    after any outcome the state is either the one before the call, or the
    one [exec_module] left when started with the alias just bound to the
    new module, the alias having been unbound before.  When the load
    returns [None] the state is the one before the call. *)
Theorem load_external_frame {W} (env : Env W) (name : string) (s : Sys W) r s' :
  _load_external_samgeo_from_dist env name s = (r, s') ->
  (s' = s \/
   exists loader m,
     dict_get (sys_modules s) alias_name = None /\
     s' = snd (exec_module env loader m (modules_setitem alias_name m s))) /\
  (r = Return None -> s' = s).
Proof.
  intros H. split.
  - destruct (load_external_state env name s r s' H) as [-> | (l & m & Hn & Hs & _)];
      [now left|]. right. now exists l, m.
  - intros ->. revert H.
    unfold _load_external_samgeo_from_dist, try_except, bind, call, ret, gets, modify.
    intros H. repeat case_match; simplify_eq; reflexivity.
Qed.

Lemma load_external_frame_witness :
  let env := Reference.env_of Reference.disk_dist in
  let s := Reference.sys0 ["/plugins"; "/site-packages"] ∅ in
  let m := mkModule 7 (Value "/site-packages/samgeo/__init__.py") in
  let s' := modules_setitem alias_name m s in
  _load_external_samgeo_from_dist env "samgeo" s = (Return (Some m), s') /\
  (s' = s \/
   exists loader m0,
     dict_get (sys_modules s) alias_name = None /\
     s' = snd (exec_module env loader m0 (modules_setitem alias_name m0 s))).
Proof.
  intros env s m s'.
  assert (H : _load_external_samgeo_from_dist env "samgeo" s = (Return (Some m), s')).
  { vm_compute. reflexivity. }
  split; [exact H|].
  exact (proj1 (load_external_frame env "samgeo" s _ s' H)).
Defined.

(** A distribution that is installed but whose file listing is [None],
    is empty, or has no entry that matches the initializer gives [None]
    and leaves the interpreter state as it was. *)
Theorem load_external_no_initializer {W} (env : Env W) (name : string) (s : Sys W)
    dist listed :
  distribution env s name = Return dist ->
  dist_files dist = Return listed ->
  Forall (fun g => ~ is_initializer g) (default [] listed) ->
  _load_external_samgeo_from_dist env name s = (Return None, s).
Proof.
  intros Hd Hl Hno. apply find_init_none in Hno.
  unfold _load_external_samgeo_from_dist, bind at 1, try_except.
  unfold bind at 1, call at 1. rewrite Hd. cbn [ret].
  unfold bind at 1, call at 1. rewrite Hl, Hno. reflexivity.
Qed.

Lemma load_external_no_initializer_witness :
  let dist := mkDist (Return None) (fun f => Reference.posix_path f) in
  let env := Reference.env_of
    (Reference.mkDisk "/plugins/samgeo/_samgeo_lib.py" [] None [] [("samgeo", dist)] [] 7 []) in
  let s := Reference.sys0 ["/plugins"; "/site-packages"] ∅ in
  _load_external_samgeo_from_dist env "samgeo" s = (Return None, s).
Proof.
  intros dist env s.
  apply (load_external_no_initializer env "samgeo" s dist None).
  - vm_compute. reflexivity.
  - reflexivity.
  - constructor.
Defined.

(** ** More on [get_samgeo] *)

Lemma from_dists_raise_cache {W} (env : Env W) (names : list string) (st : St W) r st' :
  get_samgeo_from_dists env names st = (Raise r, st') -> _CACHED st' = _CACHED st.
Proof.
  revert st; induction names as [|n names IH]; intros [c s].
  - rewrite get_samgeo_from_dists_nil, get_samgeo_raise_eq. now intros [= _ <-].
  - rewrite get_samgeo_from_dists_cons.
    destruct (_load_external_samgeo_from_dist env n s) as [[[m|]|e] s1].
    + discriminate.
    + intros H. now rewrite (IH _ H).
    + now intros [= _ <-].
Qed.

(** A call of [get_samgeo] that raises, whatever it raises, found the
    cache slot empty and leaves it empty: nothing is remembered of a
    failed resolution, and the next call starts again with the normal
    import. *)
Theorem get_samgeo_failure_keeps_cache_empty {W} (env : Env W) (st : St W) r st' :
  get_samgeo env st = (Raise r, st') ->
  _CACHED st = None /\ _CACHED st' = None.
Proof.
  destruct st as [c s]. rewrite get_samgeo_eq. cbn [_CACHED].
  destruct c as [m|]; [discriminate|]. intros H. split; [reflexivity|]. revert H.
  destruct (resolve env s (Path env (module_file env))) as [here|e];
    [|now intros [= _ <-]].
  destruct (get_samgeo_normal_import env (parent here) s) as [[[m|]|e] s1].
  - discriminate.
  - rewrite get_samgeo_retry_eq.
    destruct (_import_samgeo_without_plugin_shadow env (parent here) s1) as [[[m|]|e] s2].
    + discriminate.
    + intros H. now rewrite (from_dists_raise_cache _ _ _ _ _ H).
    + now intros [= _ <-].
  - now intros [= _ <-].
Qed.

Lemma get_samgeo_failure_keeps_cache_empty_witness :
  let env := Reference.env_of Reference.disk_dist_failing in
  let st := mkSt None (Reference.sys0 ["/plugins"; "/site-packages"] ∅) in
  let st' := mkSt None (Reference.sys0 ["/plugins"; "/site-packages"]
               {["samgeo" := Some Reference.plugin_pkg;
                 "samgeo_external" :=
                   Some (mkModule 7 (Value "/site-packages/samgeo/__init__.py"))]}) in
  get_samgeo env st = (Raise (Propagated (mkExc RuntimeError "missing dependency")), st') /\
  _CACHED st = None /\ _CACHED st' = None.
Proof.
  intros env st st'.
  assert (H : get_samgeo env st
              = (Raise (Propagated (mkExc RuntimeError "missing dependency")), st')).
  { vm_compute. reflexivity. }
  split; [exact H|].
  exact (get_samgeo_failure_keeps_cache_empty env st _ st' H).
Defined.

Lemma normal_import_some {W} (env : Env W) (d : PyPath) (s : Sys W) h s' :
  get_samgeo_normal_import env d s = (Return (Some h), s') ->
  import_module env "samgeo" s = (Return h, s') /\
  _is_module_from_dir env h d s' = (Return false, s').
Proof.
  unfold get_samgeo_normal_import, try_except. unfold bind at 1.
  destruct (import_module env "samgeo" s) as [[m|e] s1];
    [|destruct (is_Exception (exc_class e)); discriminate].
  unfold bind.
  destruct (_is_module_from_dir env m d s1) as [[b|e] s2] eqn:Hc;
    [|destruct (is_Exception (exc_class e)); discriminate].
  pose proof (is_module_from_dir_state _ _ _ _ _ _ Hc) as ->.
  destruct b; [discriminate|]. unfold ret. cbn. intros [= <- <-]. auto.
Qed.

Lemma import_without_shadow_some {W} (env : Env W) (d : PyPath) (s : Sys W) h s' :
  _import_samgeo_without_plugin_shadow env d s = (Return (Some h), s') ->
  exists s0 s1,
    import_module env "samgeo" s0 = (Return h, s1) /\
    _is_module_from_dir env h d s1 = (Return false, s1).
Proof.
  unfold _import_samgeo_without_plugin_shadow, try_finally.
  destruct (import_without_shadow_body env d (parent d) s) as [r s0] eqn:Hb.
  intros [= -> _]. revert Hb.
  unfold import_without_shadow_body, try_except.
  unfold bind at 1, gets. unfold bind at 1.
  destruct (without_plugin_parent env (parent d) (sys_path s) s) as [[kept|e] sa];
    [|destruct (is_Exception (exc_class e)); discriminate].
  unfold bind at 1, modify at 1. unfold bind at 1, modify at 1. unfold bind at 1.
  match goal with |- context [import_module env "samgeo" ?x] => set (si := x) end.
  destruct (import_module env "samgeo" si) as [[m|e] s1] eqn:Hi;
    [|destruct (is_Exception (exc_class e)); discriminate].
  unfold bind.
  destruct (_is_module_from_dir env m d s1) as [[b|e] s2] eqn:Hc;
    [|destruct (is_Exception (exc_class e)); discriminate].
  pose proof (is_module_from_dir_state _ _ _ _ _ _ Hc) as ->.
  destruct b; [discriminate|]. unfold ret. cbn. intros [= <- _].
  exists si, s1. auto.
Qed.

Lemma from_dists_return_loaded {W} (env : Env W) (names : list string) (st : St W) h st' :
  get_samgeo_from_dists env names st = (Return h, st') ->
  exists name s0 s1,
    name ∈ names /\ _load_external_samgeo_from_dist env name s0 = (Return (Some h), s1).
Proof.
  revert st; induction names as [|n names IH]; intros [c s].
  - discriminate.
  - rewrite get_samgeo_from_dists_cons.
    destruct (_load_external_samgeo_from_dist env n s) as [[[m|]|e] s1] eqn:Hl.
    + intros [= <- _]. exists n, s, s1. split; [apply list_elem_of_here | exact Hl].
    + intros H. destruct (IH _ H) as (name & s2 & s3 & Hin & Hr).
      exists name, s2, s3. split; [now apply list_elem_of_further | exact Hr].
    + discriminate.
Qed.

(** Where the result comes from.  A module that [get_samgeo] returns
    from an empty cache slot is either one that [import_module] returned
    and for which the shadow check against the plugin directory answered
    [False], or one that the load from [samgeo] or from [samgeo-py]
    returned; a module for which the check answered [True] is never the
    result of an import strategy. *)
Theorem get_samgeo_result_origin {W} (env : Env W) (s : Sys W) h st' :
  get_samgeo env (mkSt None s) = (Return h, st') ->
  exists here,
    resolve env s (Path env (module_file env)) = Return here /\
    ((exists s0 s1,
        import_module env "samgeo" s0 = (Return h, s1) /\
        _is_module_from_dir env h (parent here) s1 = (Return false, s1)) \/
     (exists name s0 s1,
        (name = "samgeo" \/ name = "samgeo-py") /\
        _load_external_samgeo_from_dist env name s0 = (Return (Some h), s1))).
Proof.
  rewrite get_samgeo_eq.
  destruct (resolve env s (Path env (module_file env))) as [here|e]; [|discriminate].
  intros H. exists here. split; [reflexivity|]. revert H.
  destruct (get_samgeo_normal_import env (parent here) s) as [[[m|]|e] s1] eqn:H1.
  - intros [= <- _]. left. apply normal_import_some in H1 as [Hi Hc].
    now exists s, s1.
  - rewrite get_samgeo_retry_eq.
    destruct (_import_samgeo_without_plugin_shadow env (parent here) s1)
      as [[[m|]|e] s2] eqn:H2.
    + intros [= <- _]. left. exact (import_without_shadow_some _ _ _ _ _ H2).
    + intros H. right.
      destruct (from_dists_return_loaded _ _ _ _ _ H) as (name & s3 & s4 & Hin & Hr).
      exists name, s3, s4. split; [|exact Hr].
      apply elem_of_cons in Hin as [-> | Hin]; [now left|].
      apply elem_of_cons in Hin as [-> | Hin]; [now right|].
      now apply elem_of_nil in Hin.
    + discriminate.
  - discriminate.
Qed.

Lemma get_samgeo_result_origin_witness :
  let env := Reference.env_of Reference.disk_both in
  let s := Reference.sys0 ["/plugins"; "/site-packages"] ∅ in
  let st' := mkSt (Some Reference.external_pkg)
               (Reference.sys0 ["/plugins"; "/site-packages"]
                  {["samgeo" := Some Reference.plugin_pkg]}) in
  get_samgeo env (mkSt None s) = (Return Reference.external_pkg, st') /\
  exists here,
    resolve env s (Path env (module_file env)) = Return here /\
    ((exists s0 s1,
        import_module env "samgeo" s0 = (Return Reference.external_pkg, s1) /\
        _is_module_from_dir env Reference.external_pkg (parent here) s1
          = (Return false, s1)) \/
     (exists name s0 s1,
        (name = "samgeo" \/ name = "samgeo-py") /\
        _load_external_samgeo_from_dist env name s0
          = (Return (Some Reference.external_pkg), s1))).
Proof.
  intros env s st'.
  assert (H : get_samgeo env (mkSt None s) = (Return Reference.external_pkg, st')).
  { vm_compute. reflexivity. }
  split; [exact H|].
  exact (get_samgeo_result_origin env s Reference.external_pkg st' H).
Defined.

(** ** What [get_samgeo] leaves untouched *)

Lemma normal_import_state {W} (env : Env W) (d : PyPath) (s : Sys W) r s' :
  get_samgeo_normal_import env d s = (r, s') ->
  s' = snd (import_module env "samgeo" s).
Proof.
  unfold get_samgeo_normal_import, try_except. unfold bind at 1.
  destruct (import_module env "samgeo" s) as [[m|e] s1]; cbn [snd].
  - unfold bind.
    destruct (_is_module_from_dir env m d s1) as [[b|e] s2] eqn:Hc;
      apply is_module_from_dir_state in Hc as ->.
    + destruct b; unfold ret; now intros [= _ <-].
    + destruct (is_Exception (exc_class e)); unfold ret; now intros [= _ <-].
  - destruct (is_Exception (exc_class e)); unfold ret; now intros [= _ <-].
Qed.

Lemma import_without_shadow_sys_path {W} (env : Env W) (d : PyPath) (s : Sys W) r s' :
  _import_samgeo_without_plugin_shadow env d s = (r, s') -> sys_path s' = sys_path s.
Proof.
  unfold _import_samgeo_without_plugin_shadow, try_finally.
  destruct (import_without_shadow_body env d (parent d) s) as [r0 s0].
  intros [= _ <-]. unfold restore_import_state.
  destruct (dict_get (sys_modules s) "samgeo"); reflexivity.
Qed.

Section Preserved.
Context {W : Type} (env : Env W).

(** The code of an executed module leaves [sys.path] with the entries
    it had: it neither rebinds the list nor adds or removes an entry. *)
Hypothesis exec_keeps_path :
  forall loader m s, sys_path (snd (exec_module env loader m s)) = sys_path s.

Lemma load_external_sys_path (name : string) (s : Sys W) r s' :
  _load_external_samgeo_from_dist env name s = (r, s') -> sys_path s' = sys_path s.
Proof.
  intros H. destruct (load_external_state env name s r s' H) as [-> | (l & m & _ & -> & _)].
  - reflexivity.
  - now rewrite exec_keeps_path.
Qed.

Lemma from_dists_sys_path (names : list string) (st : St W) r st' :
  get_samgeo_from_dists env names st = (r, st') -> sys_path (sys st') = sys_path (sys st).
Proof.
  revert st; induction names as [|n names IH]; intros [c s].
  - rewrite get_samgeo_from_dists_nil, get_samgeo_raise_eq. now intros [= _ <-].
  - rewrite get_samgeo_from_dists_cons.
    destruct (_load_external_samgeo_from_dist env n s) as [[[m|]|e] s1] eqn:Hl;
      apply load_external_sys_path in Hl.
    + now intros [= _ <-].
    + intros H. rewrite (IH _ H). exact Hl.
    + now intros [= _ <-].
Qed.

(** [get_samgeo] hands [sys.path] back as it found it.  If the normal
    import and the code of every executed module leave [sys.path] with
    the entries it had, in their order (no rebinding, no entry added or
    removed), then after a call, whatever its outcome, [sys.path] has the
    entries it had before the call, in the same order.  What the import
    of the retry does to [sys.path] does not matter: the [finally] block
    puts the saved copy back. *)
Theorem get_samgeo_keeps_sys_path (st : St W) r st' :
  sys_path (snd (import_module env "samgeo" (sys st))) = sys_path (sys st) ->
  get_samgeo env st = (r, st') -> sys_path (sys st') = sys_path (sys st).
Proof.
  destruct st as [c s]. cbn [sys]. intros import_keeps_path.
  rewrite get_samgeo_eq.
  destruct c as [m|]; [now intros [= _ <-]|].
  destruct (resolve env s (Path env (module_file env))) as [here|e];
    [|now intros [= _ <-]].
  destruct (get_samgeo_normal_import env (parent here) s) as [[[m|]|e] s1] eqn:H1;
    apply normal_import_state in H1; subst s1.
  - intros [= _ <-]. exact import_keeps_path.
  - rewrite get_samgeo_retry_eq.
    destruct (_import_samgeo_without_plugin_shadow env (parent here) _)
      as [[[m|]|e] s2] eqn:H2; apply import_without_shadow_sys_path in H2.
    + intros [= _ <-]. cbn [sys]. now rewrite H2, import_keeps_path.
    + intros H. apply from_dists_sys_path in H. cbn [sys] in H.
      now rewrite H, H2, import_keeps_path.
    + intros [= _ <-]. cbn [sys]. now rewrite H2, import_keeps_path.
  - intros [= _ <-]. exact import_keeps_path.
Qed.

End Preserved.

Lemma reference_import_keeps_path (d : Reference.Disk) s :
  sys_path (snd (import_module (Reference.env_of d) "samgeo" s)) = sys_path s.
Proof.
  cbn. unfold Reference.import_ref. repeat case_match; reflexivity.
Qed.

Lemma reference_exec_keeps_path (d : Reference.Disk) loader m s :
  sys_path (snd (exec_module (Reference.env_of d) loader m s)) = sys_path s.
Proof.
  cbn. unfold Reference.exec_ref. repeat case_match; reflexivity.
Qed.

Lemma get_samgeo_keeps_sys_path_witness :
  let env := Reference.env_of Reference.disk_both in
  let st := mkSt None (Reference.sys0 ["/plugins"; "/site-packages"] ∅) in
  let st' := mkSt (Some Reference.external_pkg)
               (Reference.sys0 ["/plugins"; "/site-packages"]
                  {["samgeo" := Some Reference.plugin_pkg]}) in
  sys_path (snd (import_module env "samgeo" (sys st))) = sys_path (sys st) /\
  get_samgeo env st = (Return Reference.external_pkg, st') /\
  sys_path (sys st') = sys_path (sys st).
Proof.
  intros env st st'.
  assert (H : get_samgeo env st = (Return Reference.external_pkg, st')).
  { vm_compute. reflexivity. }
  split; [exact (reference_import_keeps_path Reference.disk_both (sys st))|].
  split; [exact H|].
  exact (get_samgeo_keeps_sys_path env
           (reference_exec_keeps_path Reference.disk_both) st _ st'
           (reference_import_keeps_path Reference.disk_both (sys st)) H).
Defined.

Lemma import_without_shadow_body_state {W} (env : Env W) (d pp : PyPath) (s : Sys W) r s' :
  import_without_shadow_body env d pp s = (r, s') ->
  s' = s \/ exists kept, s' = snd (import_module env "samgeo" (retry_import_state kept s)).
Proof.
  destruct (without_plugin_parent env pp (sys_path s) s) as [[kept|e] s0] eqn:E.
  - rewrite (import_without_shadow_body_eq env d pp s kept) by now rewrite E.
    intros H. right. exists kept.
    destruct (import_module env "samgeo" (retry_import_state kept s)) as [[m|e] s1];
      cbn [snd].
    + destruct (_is_module_from_dir env m d s1) as [[b|e] s2] eqn:Hc;
        apply is_module_from_dir_state in Hc as ->; now injection H as _ <-.
    + now injection H as _ <-.
  - unfold import_without_shadow_body, try_except.
    unfold bind at 1, gets. unfold bind at 1. rewrite E.
    apply without_plugin_parent_state in E as ->.
    destruct (is_Exception (exc_class e)); unfold ret; intros [= _ <-]; now left.
Qed.

Section OtherModules.
Context {W : Type} (env : Env W) (k : string).

(** [k] is a key of [sys.modules] other than the two the resolver
    uses, and the code run by imports and by module execution leaves its
    entry alone. *)
Hypothesis not_samgeo : k <> "samgeo".
Hypothesis not_alias : k <> "samgeo_external".
Hypothesis import_keeps_entry :
  forall s, sys_modules (snd (import_module env "samgeo" s)) !! k = sys_modules s !! k.
Hypothesis exec_keeps_entry :
  forall loader m s, sys_modules (snd (exec_module env loader m s)) !! k = sys_modules s !! k.

Lemma restore_keeps_entry (path : list string) (orig : option ModuleType) (s : Sys W) :
  sys_modules (restore_import_state path orig s) !! k = sys_modules s !! k.
Proof.
  unfold restore_import_state. destruct orig as [m|]; [|reflexivity].
  cbn. now apply lookup_insert_ne.
Qed.

Lemma import_without_shadow_keeps_entry (d : PyPath) (s : Sys W) r s' :
  _import_samgeo_without_plugin_shadow env d s = (r, s') ->
  sys_modules s' !! k = sys_modules s !! k.
Proof.
  unfold _import_samgeo_without_plugin_shadow, try_finally.
  destruct (import_without_shadow_body env d (parent d) s) as [r0 s0] eqn:Hb.
  intros [= _ <-]. rewrite restore_keeps_entry.
  destruct (import_without_shadow_body_state _ _ _ _ _ _ Hb) as [-> | [kept ->]];
    [reflexivity|].
  rewrite import_keeps_entry.
  destruct (retry_import_state_spec kept s) as (_ & _ & H). now apply H.
Qed.

Lemma load_external_keeps_entry (name : string) (s : Sys W) r s' :
  _load_external_samgeo_from_dist env name s = (r, s') ->
  sys_modules s' !! k = sys_modules s !! k.
Proof.
  intros H. destruct (load_external_state env name s r s' H) as [-> | (l & m & _ & -> & _)].
  - reflexivity.
  - rewrite exec_keeps_entry. cbn. now apply lookup_insert_ne.
Qed.

Lemma from_dists_keeps_entry (names : list string) (st : St W) r st' :
  get_samgeo_from_dists env names st = (r, st') ->
  sys_modules (sys st') !! k = sys_modules (sys st) !! k.
Proof.
  revert st; induction names as [|n names IH]; intros [c s].
  - rewrite get_samgeo_from_dists_nil, get_samgeo_raise_eq. now intros [= _ <-].
  - rewrite get_samgeo_from_dists_cons.
    destruct (_load_external_samgeo_from_dist env n s) as [[[m|]|e] s1] eqn:Hl;
      apply load_external_keeps_entry in Hl.
    + now intros [= _ <-].
    + intros H. rewrite (IH _ H). exact Hl.
    + now intros [= _ <-].
Qed.

(** [get_samgeo] writes [sys.modules] under [samgeo] and
    [samgeo_external] only.  For any other key, if the code run by
    imports and by module execution leaves its entry alone, the entry is
    after a call, whatever its outcome, what it was before. *)
Theorem get_samgeo_keeps_other_modules (st : St W) r st' :
  get_samgeo env st = (r, st') ->
  sys_modules (sys st') !! k = sys_modules (sys st) !! k.
Proof.
  destruct st as [c s]. rewrite get_samgeo_eq. cbn [sys].
  destruct c as [m|]; [now intros [= _ <-]|].
  destruct (resolve env s (Path env (module_file env))) as [here|e];
    [|now intros [= _ <-]].
  destruct (get_samgeo_normal_import env (parent here) s) as [[[m|]|e] s1] eqn:H1;
    apply normal_import_state in H1; subst s1.
  - intros [= _ <-]. apply import_keeps_entry.
  - rewrite get_samgeo_retry_eq.
    destruct (_import_samgeo_without_plugin_shadow env (parent here) _)
      as [[[m|]|e] s2] eqn:H2; apply import_without_shadow_keeps_entry in H2.
    + intros [= _ <-]. cbn [sys]. now rewrite H2, import_keeps_entry.
    + intros H. apply from_dists_keeps_entry in H. cbn [sys] in H.
      now rewrite H, H2, import_keeps_entry.
    + intros [= _ <-]. cbn [sys]. now rewrite H2, import_keeps_entry.
  - intros [= _ <-]. apply import_keeps_entry.
Qed.

End OtherModules.

Lemma reference_import_keeps_entry (d : Reference.Disk) (k : string) s :
  k <> "samgeo" ->
  sys_modules (snd (import_module (Reference.env_of d) "samgeo" s)) !! k
  = sys_modules s !! k.
Proof.
  intros Hk. cbn. unfold Reference.import_ref. repeat case_match; try reflexivity.
  cbn. now apply lookup_insert_ne.
Qed.

Lemma reference_exec_keeps_entry (d : Reference.Disk) (k : string) loader m s :
  sys_modules (snd (exec_module (Reference.env_of d) loader m s)) !! k = sys_modules s !! k.
Proof.
  cbn. unfold Reference.exec_ref. repeat case_match; reflexivity.
Qed.

Lemma get_samgeo_keeps_other_modules_witness :
  let env := Reference.env_of Reference.disk_dist in
  let os := mkModule 9 (Value "/usr/lib/python3/os.py") in
  let st := mkSt None (Reference.sys0 ["/plugins"; "/site-packages"] {["os" := Some os]}) in
  "os" <> "samgeo" /\ "os" <> "samgeo_external" /\
  sys_modules (sys (snd (get_samgeo env st))) !! "os" = Some (Some os).
Proof.
  intros env os st.
  assert (H1 : "os" <> "samgeo") by discriminate.
  assert (H2 : "os" <> "samgeo_external") by discriminate.
  split; [exact H1|]. split; [exact H2|].
  rewrite (get_samgeo_keeps_other_modules env "os" H1 H2
             (fun s => reference_import_keeps_entry Reference.disk_dist "os" s H1)
             (reference_exec_keeps_entry Reference.disk_dist "os")
             st (fst (get_samgeo env st)) (snd (get_samgeo env st))).
  - vm_compute. reflexivity.
  - now destruct (get_samgeo env st).
Defined.

(** ** Round trips *)

(** The rollback of the retry is exact when a module was cached.  If
    [sys.modules] held a module under [samgeo] before the call, every
    entry of [sys.path] resolves, and the import changed nothing but
    [sys.path] and the entry of [samgeo], then the state after the call
    is the state before it, whatever the import returned or raised. *)
Theorem import_without_shadow_round_trip {W} (env : Env W) (dir : PyPath) (s : Sys W)
    kept m0 :
  fst (without_plugin_parent env (parent dir) (sys_path s) s) = Return kept ->
  dict_get (sys_modules s) "samgeo" = Some m0 ->
  let s1 := snd (import_module env "samgeo" (retry_import_state kept s)) in
  (forall k, k <> "samgeo" -> sys_modules s1 !! k = sys_modules s !! k) ->
  sys_executable s1 = sys_executable s ->
  sys_version_info s1 = sys_version_info s ->
  world s1 = world s ->
  snd (_import_samgeo_without_plugin_shadow env dir s) = s.
Proof.
  intros Hkept Horig s1 Hmods Hexe Hver Hw.
  unfold _import_samgeo_without_plugin_shadow, try_finally.
  destruct (import_without_shadow_body env dir (parent dir) s) as [r s2] eqn:Hb.
  cbn [snd].
  assert (s2 = s1) as ->.
  { revert Hb. rewrite (import_without_shadow_body_eq env dir (parent dir) s kept Hkept).
    fold s1. destruct (import_module env "samgeo" (retry_import_state kept s))
      as [[m|e] s3] eqn:Hi; cbn [snd] in s1; subst s1.
    - destruct (_is_module_from_dir env m dir s3) as [[b|e] s4] eqn:Hc;
        apply is_module_from_dir_state in Hc as ->; now intros [= _ <-].
    - now intros [= _ <-]. }
  rewrite Horig. unfold restore_import_state, modules_setitem, set_sys_modules, set_sys_path.
  cbn [sys_path sys_modules sys_executable sys_version_info world].
  destruct s as [path mods exe ver w]. cbn [sys_path sys_modules sys_executable
    sys_version_info world] in *.
  rewrite Hexe, Hver, Hw. f_equal.
  apply map_eq. intros k. destruct (decide (k = "samgeo")) as [-> | Hk].
  - rewrite lookup_insert_eq. unfold dict_get in Horig.
    destruct (mods !! "samgeo") as [[m|]|]; congruence.
  - rewrite lookup_insert_ne by congruence. now apply Hmods.
Qed.

Lemma import_without_shadow_round_trip_witness :
  let env := Reference.env_of Reference.disk_both in
  let s := Reference.sys0 ["/plugins"; "/site-packages"]
             {["samgeo" := Some Reference.plugin_pkg]} in
  _import_samgeo_without_plugin_shadow env Reference.plugin_dir s
    = (Return (Some Reference.external_pkg), s) /\
  snd (_import_samgeo_without_plugin_shadow env Reference.plugin_dir s) = s.
Proof.
  intros env s. split; [vm_compute; reflexivity|].
  apply (import_without_shadow_round_trip env Reference.plugin_dir s
           ["/site-packages"] Reference.plugin_pkg).
  - vm_compute. reflexivity.
  - vm_compute. reflexivity.
  - intros k Hk.
    match goal with
    | |- ?l !! k = ?r !! k =>
        assert (El : l = <["samgeo" := Some Reference.external_pkg]> ∅)
          by (vm_compute; reflexivity);
        assert (Er : r = <["samgeo" := Some Reference.plugin_pkg]> ∅)
          by (vm_compute; reflexivity);
        rewrite El, Er
    end.
    rewrite !lookup_insert_ne by congruence. reflexivity.
  - reflexivity.
  - reflexivity.
  - reflexivity.
Defined.

(** What a module returned by the load is.  It is the module that
    [sys.modules] bound to the alias when the call began, the state being
    unchanged; or the alias was unbound, and the call bound it to the
    module and ran the module's code, which returned and left the final
    state. *)
Theorem load_external_result {W} (env : Env W) (name : string) (s : Sys W) h s' :
  _load_external_samgeo_from_dist env name s = (Return (Some h), s') ->
  (dict_get (sys_modules s) alias_name = Some h /\ s' = s) \/
  (dict_get (sys_modules s) alias_name = None /\
   exists loader,
     exec_module env loader h (modules_setitem alias_name h s) = (Return tt, s')).
Proof.
  unfold _load_external_samgeo_from_dist, try_except, bind, call, ret, gets, modify.
  intros H. repeat case_match; simplify_eq.
  - left. split; [assumption | reflexivity].
  - right. split; [assumption|]. eexists.
    match goal with E : exec_module _ _ _ _ = (Return ?u, _) |- _ => destruct u; exact E end.
Qed.

Lemma load_external_result_witness :
  let env := Reference.env_of Reference.disk_dist in
  let s := Reference.sys0 ["/plugins"; "/site-packages"] ∅ in
  let m := mkModule 7 (Value "/site-packages/samgeo/__init__.py") in
  let s' := modules_setitem alias_name m s in
  _load_external_samgeo_from_dist env "samgeo" s = (Return (Some m), s') /\
  ((dict_get (sys_modules s) alias_name = Some m /\ s' = s) \/
   (dict_get (sys_modules s) alias_name = None /\
    exists loader,
      exec_module env loader m (modules_setitem alias_name m s) = (Return tt, s'))).
Proof.
  intros env s m s'.
  assert (H : _load_external_samgeo_from_dist env "samgeo" s = (Return (Some m), s')).
  { vm_compute. reflexivity. }
  split; [exact H|].
  exact (load_external_result env "samgeo" s m s' H).
Defined.

(** ** When a strategy gives no module *)

Lemma check_true_shadowed {W} (env : Env W) (m : ModuleType) (d : PyPath) (s s' : Sys W) :
  _is_module_from_dir env m d s = (Return true, s') <-> s' = s /\ shadowed env m d s.
Proof.
  unfold shadowed. split.
  - intros H. split; [exact (is_module_from_dir_state _ _ _ _ _ _ H)|].
    revert H. unfold _is_module_from_dir, try_except, bind, call, ret.
    destruct (mod_file m) as [| |f] eqn:Hf; cbn [getattr]; try discriminate.
    destruct f as [|c f]; cbn [truthy negb]; [discriminate|].
    destruct (resolve env s (Path env (String c f))) as [pf|e] eqn:Hpf;
      [|destruct (is_Exception (exc_class e)); discriminate].
    destruct (resolve env s d) as [pd|e] eqn:Hpd;
      [|destruct (is_Exception (exc_class e)); discriminate].
    intros [= Hrel _]. exists (String c f), pf, pd.
    repeat split; try assumption; [discriminate | now apply is_relative_to_spec].
  - intros [-> (f & pf & pd & Hf & Hne & Hpf & Hpd & Hd)].
    rewrite (is_module_from_dir_file env m d s f pf pd Hf Hne Hpf Hpd).
    apply is_relative_to_spec in Hd. now rewrite Hd.
Qed.

Lemma normal_import_none {W} (env : Env W) (d : PyPath) (s s1 : Sys W) :
  get_samgeo_normal_import env d s = (Return None, s1) <-> import_rejected env d s s1.
Proof.
  unfold import_rejected, get_samgeo_normal_import, try_except. unfold bind at 1. split.
  - destruct (import_module env "samgeo" s) as [[m|e] s0].
    + unfold bind.
      destruct (_is_module_from_dir env m d s0) as [[b|e] s2] eqn:Hc.
      * pose proof (is_module_from_dir_state _ _ _ _ _ _ Hc) as ->.
        destruct b; unfold ret; [|discriminate]. intros [= <-].
        right. exists m. split; [reflexivity|]. now apply (check_true_shadowed env m d s0 s0).
      * rewrite (try_except_Exception _ _ _ _ _ Hc). discriminate.
    + destruct (is_Exception (exc_class e)) eqn:He; [|discriminate].
      unfold ret. intros [= <-]. left. now exists e.
  - intros [(e & -> & He) | (m & -> & Hs)].
    + now rewrite He.
    + unfold bind.
      rewrite (proj2 (check_true_shadowed env m d s1 s1) (conj eq_refl Hs)). reflexivity.
Qed.

Lemma retry_gives_up {W} (env : Env W) (d : PyPath) (s : Sys W) e :
  fst (without_plugin_parent env (parent d) (sys_path s) s) = Raise e ->
  _import_samgeo_without_plugin_shadow env d s
  = (if is_Exception (exc_class e) then Return None else Raise e, s).
Proof.
  intros H.
  unfold _import_samgeo_without_plugin_shadow, try_finally, import_without_shadow_body,
    try_except.
  unfold bind at 1, gets. unfold bind at 1.
  destruct (without_plugin_parent env (parent d) (sys_path s) s) as [r s0] eqn:E.
  cbn [fst] in H. subst r. apply without_plugin_parent_state in E as ->.
  destruct (is_Exception (exc_class e)); unfold ret;
    now rewrite restore_import_state_same.
Qed.

Lemma retry_imports {W} (env : Env W) (d : PyPath) (s : Sys W) kept :
  fst (without_plugin_parent env (parent d) (sys_path s) s) = Return kept ->
  _import_samgeo_without_plugin_shadow env d s
  = let restore := restore_import_state (sys_path s) (dict_get (sys_modules s) "samgeo") in
    let '(r, s1) :=
      get_samgeo_normal_import env d (retry_import_state kept s) in
    (match r with
     | Return (Some m) => Return (Some m)
     | Return None => Return None
     | Raise e => Raise e
     end, restore s1).
Proof.
  intros H. unfold _import_samgeo_without_plugin_shadow, try_finally.
  rewrite (import_without_shadow_body_eq env d (parent d) s kept H).
  unfold get_samgeo_normal_import, try_except. unfold bind at 1.
  destruct (import_module env "samgeo" (retry_import_state kept s)) as [[m|e] s1].
  - unfold bind. destruct (_is_module_from_dir env m d s1) as [[b|e] s2].
    + destruct b; reflexivity.
    + destruct (is_Exception (exc_class e)); reflexivity.
  - destruct (is_Exception (exc_class e)); reflexivity.
Qed.

Lemma retry_none {W} (env : Env W) (d : PyPath) (s s2 : Sys W) :
  _import_samgeo_without_plugin_shadow env d s = (Return None, s2) <->
  retry_rejected env d s s2.
Proof.
  unfold retry_rejected.
  destruct (without_plugin_parent env (parent d) (sys_path s) s) as [[kept|e] s0] eqn:E.
  - rewrite (retry_imports env d s kept) by now rewrite E. cbn [fst]. cbv zeta.
    destruct (get_samgeo_normal_import env d (retry_import_state kept s))
      as [r s1] eqn:Hn. split.
    + destruct r as [[m|]|e]; try discriminate. intros [= <-].
      right. exists kept, s1. split; [reflexivity|]. split; [|reflexivity].
      now apply normal_import_none.
    + intros [(e & He & _) | (kept' & s1' & [= <-] & Hr & ->)]; [discriminate|].
      apply normal_import_none in Hr. rewrite Hr in Hn. now injection Hn as <- <-.
  - rewrite (retry_gives_up env d s e) by now rewrite E. cbn [fst]. split.
    + destruct (is_Exception (exc_class e)) eqn:He; [|discriminate].
      intros [= <-]. left. now exists e.
    + intros [(e' & [= <-] & He & ->) | (kept & s1 & Hk & _)]; [|discriminate].
      now rewrite He.
Qed.

Lemma load_no_initializer {W} (env : Env W) (name : string) (s : Sys W) dist listed :
  distribution env s name = Return dist ->
  dist_files dist = Return listed ->
  find_init (default [] listed) = None ->
  _load_external_samgeo_from_dist env name s = (Return None, s).
Proof.
  intros Hd Hl Hno.
  unfold _load_external_samgeo_from_dist, bind at 1, try_except.
  unfold bind at 1, call at 1. rewrite Hd. cbn [ret].
  unfold bind at 1, call at 1. rewrite Hl, Hno. reflexivity.
Qed.

Lemma load_none {W} (env : Env W) (name : string) (s s' : Sys W) :
  _load_external_samgeo_from_dist env name s = (Return None, s') <->
  s' = s /\ load_misses env name s.
Proof.
  unfold load_misses. split.
  - destruct (distribution env s name) as [dist|e] eqn:Hd.
    2:{ destruct (is_PackageNotFoundError (exc_class e)) eqn:He.
        - rewrite (load_external_not_found env name s e Hd He). intros [= <-].
          split; [reflexivity|]. left. now exists e.
        - unfold _load_external_samgeo_from_dist, bind at 1, try_except.
          unfold bind, call. rewrite Hd, He. discriminate. }
    destruct (dist_files dist) as [listed|e] eqn:Hl.
    2:{ unfold _load_external_samgeo_from_dist, bind at 1, try_except.
        unfold bind at 1, call at 1. rewrite Hd. cbn [ret].
        unfold bind at 1, call at 1. rewrite Hl. discriminate. }
    destruct (find_init (default [] listed)) as [init_rel|] eqn:Hf.
    2:{ rewrite (load_no_initializer env name s dist listed Hd Hl Hf). intros [= <-].
        split; [reflexivity|]. right. left. exists dist, listed.
        split; [reflexivity|]. split; [exact Hl|]. now apply find_init_none. }
    destruct (resolve env s (locate_file dist init_rel)) as [init_path|e] eqn:Hr.
    2:{ unfold _load_external_samgeo_from_dist, bind at 1, try_except.
        unfold bind at 1, call at 1. rewrite Hd. cbn [ret].
        unfold bind at 1, call at 1. rewrite Hl, Hf.
        unfold bind at 1, call at 1. rewrite Hr. discriminate. }
    assert (Hfound : finds_initializer env name s dist init_rel init_path).
    { split; [exact Hd|]. split; [now exists listed | exact Hr]. }
    rewrite (load_external_found env name s _ _ _ Hfound).
    destruct (dict_get (sys_modules s) alias_name) as [m|] eqn:Ha; [discriminate|].
    destruct (spec_from_file_location env s alias_name init_path [parent init_path])
      as [[sp|]|e] eqn:Hs; [| |discriminate].
    + destruct (spec_loader sp) as [loader|] eqn:Hlo.
      * destruct (module_from_spec env s sp) as [m|e]; [|discriminate].
        destruct (exec_module env loader m (modules_setitem alias_name m s)) as [[u|e] s1];
          discriminate.
      * intros [= <-]. split; [reflexivity|]. right. right.
        exists dist, init_rel, init_path. split; [exact Hfound|]. split; [reflexivity|].
        right. now exists sp.
    + intros [= <-]. split; [reflexivity|]. right. right.
      exists dist, init_rel, init_path. split; [exact Hfound|]. split; [reflexivity|].
      now left.
  - intros [-> [(e & Hd & He) | [(dist & listed & Hd & Hl & Hno) |
                (dist & init_rel & init_path & Hfound & Ha & Hs)]]].
    + exact (load_external_not_found env name s e Hd He).
    + apply find_init_none in Hno. exact (load_no_initializer env name s dist listed Hd Hl Hno).
    + rewrite (load_external_found env name s _ _ _ Hfound), Ha.
      destruct Hs as [-> | (sp & -> & ->)]; reflexivity.
Qed.

(** ** The final error and the environment *)

Lemma message_shows_executable (py ver : string) :
  contains (resolution_message py ver) ("executable: " +:+ py).
Proof.
  exists ("SamGeo plugin could not import the external 'samgeo' library because the plugin " +:+
          "package name shadows it." +:+ nl +:+ nl +:+ "QGIS Python:" +:+ nl +:+ "  "),
         (nl +:+ "  version: " +:+ ver +:+ nl +:+ nl +:+ remediation).
  unfold resolution_message. rewrite !str_app_assoc. reflexivity.
Qed.

Lemma message_shows_version (py ver : string) :
  contains (resolution_message py ver) ("version: " +:+ ver).
Proof.
  exists ("SamGeo plugin could not import the external 'samgeo' library because the plugin " +:+
          "package name shadows it." +:+ nl +:+ nl +:+ "QGIS Python:" +:+ nl +:+
          "  executable: " +:+ py +:+ nl +:+ "  "),
         (nl +:+ nl +:+ remediation).
  unfold resolution_message. rewrite !str_app_assoc. reflexivity.
Qed.

Lemma message_says_install (py ver : string) :
  contains (resolution_message py ver)
    "Fix: install the SamGeo Python package into *this same Python environment*.".
Proof.
  exists ("SamGeo plugin could not import the external 'samgeo' library because the plugin " +:+
          "package name shadows it." +:+ nl +:+ nl +:+ "QGIS Python:" +:+ nl +:+
          "  executable: " +:+ py +:+ nl +:+ "  version: " +:+ ver +:+ nl +:+ nl),
         (nl +:+ "In QGIS, open Python Console and run:" +:+ nl +:+
          "  import sys, subprocess" +:+ nl +:+
          "  subprocess.check_call([sys.executable, '-m', 'pip', 'install', '--user', 'samgeo'])"
          +:+ nl).
  unfold resolution_message, remediation. rewrite !str_app_assoc. reflexivity.
Qed.

Lemma message_gives_command (py ver : string) :
  contains (resolution_message py ver)
    "subprocess.check_call([sys.executable, '-m', 'pip', 'install', '--user', 'samgeo'])".
Proof.
  exists ("SamGeo plugin could not import the external 'samgeo' library because the plugin " +:+
          "package name shadows it." +:+ nl +:+ nl +:+ "QGIS Python:" +:+ nl +:+
          "  executable: " +:+ py +:+ nl +:+ "  version: " +:+ ver +:+ nl +:+ nl +:+
          "Fix: install the SamGeo Python package into *this same Python environment*." +:+
          nl +:+ "In QGIS, open Python Console and run:" +:+ nl +:+
          "  import sys, subprocess" +:+ nl +:+ "  "),
         nl.
  unfold resolution_message, remediation. rewrite !str_app_assoc. reflexivity.
Qed.

Lemma final_error_iff {W} (env : Env W) (st : St W) msg st' :
  get_samgeo env st = (Raise (ResolutionError msg), st') <->
  _CACHED st = None /\
  exists here s1 s2,
    resolve env (sys st) (Path env (module_file env)) = Return here /\
    import_rejected env (parent here) (sys st) s1 /\
    retry_rejected env (parent here) s1 s2 /\
    load_misses env "samgeo" s2 /\
    load_misses env "samgeo-py" s2 /\
    st' = mkSt None s2 /\ msg = diagnostic s2.
Proof.
  rewrite final_error_flow. unfold all_strategies_fail. split.
  - intros [[Hc (here & s1 & s2 & s3 & s4 & Hh & H1 & H2 & H3 & H4 & ->)] ->].
    apply normal_import_none in H1. apply retry_none in H2.
    apply load_none in H3 as [-> H3]. apply load_none in H4 as [-> H4].
    split; [exact Hc|]. exists here, s1, s2. auto 10.
  - intros [Hc (here & s1 & s2 & Hh & H1 & H2 & H3 & H4 & -> & ->)].
    split; [|reflexivity]. split; [exact Hc|].
    exists here, s1, s2, s2, s2.
    split; [exact Hh|]. split; [now apply normal_import_none|].
    split; [now apply retry_none|].
    split; [now apply load_none|]. split; [now apply load_none | reflexivity].
Qed.

(** C4, as amended.  [get_samgeo] raises the [ImportError] built by its
    own [raise] statement exactly when the cache slot is empty, the
    module's own path resolves, and every strategy ends without a
    module: the normal import raises an [Exception] or returns a
    shadowed module; the retry cannot resolve a path entry, or its
    import raises an [Exception] or returns a shadowed module; and each
    of [samgeo] and [samgeo-py] is not installed, or lists no
    initializer, or gets no import spec or loader.  In particular the
    error is raised when path resolution fails with ordinary errors
    only, every import of [samgeo] is rejected, and no distribution is
    installed.  To the caller the error is an [ImportError]; its text
    shows [sys.executable], the version triple, the instruction to
    install the package and the command that does it. *)
Theorem get_samgeo_resolution_error {W} (env : Env W) (st : St W) :
  (forall msg st',
     get_samgeo env st = (Raise (ResolutionError msg), st') <->
     _CACHED st = None /\
     exists here s1 s2,
       resolve env (sys st) (Path env (module_file env)) = Return here /\
       import_rejected env (parent here) (sys st) s1 /\
       retry_rejected env (parent here) s1 s2 /\
       load_misses env "samgeo" s2 /\
       load_misses env "samgeo-py" s2 /\
       st' = mkSt None s2 /\ msg = diagnostic s2) /\
  (forall here,
     _CACHED st = None ->
     resolve env (sys st) (Path env (module_file env)) = Return here ->
     (forall s p e, resolve env s p = Raise e -> is_Exception (exc_class e) = true) ->
     (forall s, exists s1, import_rejected env (parent here) s s1) ->
     (forall s name,
        exists e,
          distribution env s name = Raise e /\
          is_PackageNotFoundError (exc_class e) = true) ->
     exists st',
       get_samgeo env st = (Raise (ResolutionError (diagnostic (sys st'))), st')) /\
  (forall msg, exc_of (ResolutionError msg) = mkExc ImportError msg) /\
  (forall s : Sys W,
     (forall exe,
        sys_executable s = Value exe -> contains (diagnostic s) ("executable: " +:+ exe)) /\
     contains (diagnostic s)
       ("version: " +:+
        pretty (major (sys_version_info s)) +:+ "." +:+
        pretty (minor (sys_version_info s)) +:+ "." +:+
        pretty (micro (sys_version_info s))) /\
     contains (diagnostic s)
       "Fix: install the SamGeo Python package into *this same Python environment*." /\
     contains (diagnostic s)
       "subprocess.check_call([sys.executable, '-m', 'pip', 'install', '--user', 'samgeo'])").
Proof.
  split; [intros msg st'; apply final_error_iff|].
  split; [|split; [reflexivity|]].
  - intros here Hc Hh Hres Himp Hdist.
    destruct (Himp (sys st)) as [s1 H1].
    assert (exists s2, retry_rejected env (parent here) s1 s2) as [s2 H2].
    { unfold retry_rejected.
      destruct (without_plugin_parent env (parent (parent here)) (sys_path s1) s1)
        as [[kept|e] s0] eqn:E; cbn [fst].
      - destruct (Himp (retry_import_state kept s1)) as [s1' H1'].
        eexists. right. exists kept, s1'. split; [reflexivity|]. split; [exact H1'|].
        reflexivity.
      - exists s1. left. exists e. split; [reflexivity|]. split; [|reflexivity].
        assert (Hr : fst (without_plugin_parent env (parent (parent here)) (sys_path s1) s1)
                     = Raise e) by now rewrite E.
        destruct (without_plugin_parent_raise _ _ _ _ _ Hr) as [(p & _ & Hp) | Hp];
          exact (Hres _ _ _ Hp). }
    exists (mkSt None s2). apply final_error_iff. split; [exact Hc|].
    exists here, s1, s2. split; [exact Hh|]. split; [exact H1|]. split; [exact H2|].
    split; [left; apply Hdist|]. split; [left; apply Hdist|]. split; reflexivity.
  - intros s. split; [|split; [|split]].
    + intros exe Hexe. unfold diagnostic. rewrite Hexe. apply message_shows_executable.
    + apply message_shows_version.
    + apply message_says_install.
    + apply message_gives_command.
Qed.

Lemma reference_resolve_ordinary (d : Reference.Disk) s p e :
  resolve (Reference.env_of d) s p = Raise e -> is_Exception (exc_class e) = true.
Proof.
  cbn. unfold Reference.resolve_ref. case_bool_decide; [|discriminate].
  now intros [= <-].
Qed.

(** Nothing can be imported and nothing is installed: the final error. *)
Lemma get_samgeo_resolution_error_witness :
  let e := mkExc ModuleNotFoundError "No module named samgeo" in
  let env := Reference.env_of
    (Reference.mkDisk "/plugins/samgeo/_samgeo_lib.py" [] (Some e) [] [] [] 7 []) in
  let st := mkSt None (Reference.sys0 ["/plugins"; "/site-packages"] ∅) in
  let here := Reference.posix_path "/plugins/samgeo/_samgeo_lib.py" in
  _CACHED st = None /\
  resolve env (sys st) (Path env (module_file env)) = Return here /\
  (forall s, exists s1, import_rejected env (parent here) s s1) /\
  exists st', get_samgeo env st = (Raise (ResolutionError (diagnostic (sys st'))), st').
Proof.
  intros e env st here.
  assert (Hh : resolve env (sys st) (Path env (module_file env)) = Return here).
  { vm_compute. reflexivity. }
  assert (Hi : forall s, exists s1, import_rejected env (parent here) s s1).
  { intros s. exists s. left. exists e. split; reflexivity. }
  split; [reflexivity|]. split; [exact Hh|]. split; [exact Hi|].
  apply (proj1 (proj2 (get_samgeo_resolution_error env st)) here eq_refl Hh).
  - apply reference_resolve_ordinary.
  - exact Hi.
  - intros s name. exists (mkExc PackageNotFoundError name). split; reflexivity.
Defined.

(** C4 fails as stated: the distribution [samgeo] is installed, without
    a record of its files, and the library is importable from
    [/site-packages], but the retry gives up on the path entry [/gone],
    which does not resolve; [get_samgeo] raises its final error. *)
Lemma final_error_with_library_installed :
  ~ final_error_means_nothing_found (Reference.env_of Reference.disk_installed)
      (mkSt None (Reference.sys0 ["/plugins"; "/gone"; "/site-packages"] ∅)).
Proof.
  unfold final_error_means_nothing_found. intros H.
  pose (s' := Reference.sys0 ["/plugins"; "/gone"; "/site-packages"]
                {["samgeo" := Some Reference.plugin_pkg]}).
  destruct (H (diagnostic s') (mkSt None s')) as [Hd _].
  { vm_compute. reflexivity. }
  destruct (Hd "samgeo" (or_introl eq_refl)) as (e & He & _).
  vm_compute in He. discriminate He.
Qed.

(** In the same environment an import with the plugin's parent off the
    path does return the library. *)
Example library_importable :
  fst (import_module (Reference.env_of Reference.disk_installed) "samgeo"
         (Reference.sys0 ["/site-packages"] ∅))
  = Return Reference.external_pkg.
Proof. vm_compute. reflexivity. Qed.

(** An [ImportError] can also reach the caller from the code of the
    library, executed by the load from a distribution: it is not the
    final error. *)
Example import_error_from_execution :
  let e := mkExc ImportError "cannot import name" in
  let env := Reference.env_of
    (Reference.mkDisk "/plugins/samgeo/_samgeo_lib.py" [("/plugins", Reference.plugin_pkg)]
       None [] [("samgeo", Reference.site_dist)] [] 7 [(7, e)]) in
  fst (get_samgeo env (mkSt None (Reference.sys0 ["/plugins"; "/site-packages"] ∅)))
  = Raise (Propagated e).
Proof. vm_compute. reflexivity. Qed.

(** ** Exceptions of the strategies, and what follows them *)




